(** * neon_mq_connector: retry policy, consumer threads and the MQ connector

    A shallow embedding of [neon_mq_connector/utils/connection_utils.py] and
    [neon_mq_connector/connector.py], and the properties of the retry
    wrapper, the consumer thread life cycle, publishing and the consumer
    registry that hold of that code. *)

From Stdlib Require Import ZArith QArith Qpower Qabs String List Lia.
From stdpp Require Import gmap strings list.
From Equations Require Import Equations.
From Stdlib Require Import SpecFloat.
Import ListNotations.

Local Open Scope Z_scope.
Local Open Scope string_scope.

(** ** Python values

    The objects the connector handles: the payload of a message, the entries
    of a configuration, the arguments of a callback.  A [dict] keeps its
    insertion order, so it is an association list with unique keys.  Keys
    are strings: payloads and configurations are JSON documents. *)

#[local] Set Warnings "-register-all".

Inductive value : Type :=
| VNone
| VBool (b : bool)
| VInt (z : Z)
| VStr (s : string)
| VList (l : list value)
| VDict (d : list (string * value))
| VObject (id : nat).

Module PyDict.
Section Dict.
Context {V : Type}.

Definition t := list (string * V).

(** [d.get(k)] *)
Fixpoint get (k : string) (d : t) : option V :=
  match d with
  | [] => None
  | (k', v) :: d' => if String.eqb k k' then Some v else get k d'
  end.

(** [d[k] = v]: an existing key keeps its position, a new key goes last. *)
Fixpoint set (k : string) (v : V) (d : t) : t :=
  match d with
  | [] => [(k, v)]
  | (k', v') :: d' =>
      if String.eqb k k' then (k, v) :: d' else (k', v') :: set k v d'
  end.

(** [list(d)] *)
Definition keys (d : t) : list string := map fst d.

(** [k in list(d)] *)
Definition mem (k : string) (d : t) : bool :=
  match get k d with Some _ => true | None => false end.
End Dict.
Arguments t : clear implicits.
End PyDict.

(** ** Exceptions

    Instances of Python's [Exception].  The signals below [BaseException]
    that are not an [Exception] (KeyboardInterrupt, SystemExit) stop the
    interpreter and are not part of the model. *)

Inductive exn_class : Type :=
| ChannelClosed          (* pika.exceptions.ChannelClosed *)
| ValueError
| TypeError
| KeyError
| AttributeError
| RuntimeError
| OverflowError
| ChildProcessError
| OtherError (name : string).

Inductive exn : Type :=
| Exc (c : exn_class) (arg : value)
| ExcFrom (c : exn_class) (cause : exn).   (* [c(cause)], as in [ChildProcessError(e)] *)

Definition class_of (e : exn) : exn_class :=
  match e with Exc c _ => c | ExcFrom c _ => c end.

Inductive result (A : Type) : Type :=
| Ok (a : A)
| Raise (e : exn).
Arguments Ok {A} a.
Arguments Raise {A} e.

(** ** connection_utils.py *)

(** *** Python numbers

    An [int] is an integer of any size; a [float] is a number of IEEE 754
    binary64, with the operations of the standard library's specification
    of floating-point arithmetic: 53 bits of mantissa, round to nearest
    even, signed zeros, infinities and NaN. *)

Definition prec : Z := 53.
Definition emax : Z := 1024.

Inductive number : Type :=
| PyInt (z : Z)
| PyFloat (f : spec_float).

(** [float(z)] for an int [z]: the nearest float, and [OverflowError] when
    that is beyond the largest float. *)
Definition float_of_int (z : Z) : result spec_float :=
  match binary_normalize prec emax z 0 false with
  | S754_infinity _ =>
      Raise (Exc OverflowError (VStr "int too large to convert to float"))
  | f => Ok f
  end.

(** The conversion of an operand of mixed arithmetic. *)
Definition to_float (x : number) : result spec_float :=
  match x with
  | PyInt z => float_of_int z
  | PyFloat f => Ok f
  end.

(** [2 ** k] for an int [k]: the int [2^k] when [k >= 0]; below 0 the
    operands are converted to float and the result is the float nearest to
    [2^k], which is [0.0] from [2 ** -1075] down. *)
Definition py_pow2 (k : Z) : result number :=
  if (0 <=? k)%Z then Ok (PyInt (2 ^ k))
  else
    match float_of_int k with
    | Raise e => Raise e
    | Ok _ => Ok (PyFloat (binary_normalize prec emax 1 k false))
    end.

(** [x * y]: exact on two ints; otherwise the int operand is converted and
    the floats are multiplied, which may give [inf] or [nan] but does not
    raise. *)
Definition py_mul (x y : number) : result number :=
  match x, y with
  | PyInt a, PyInt b => Ok (PyInt (a * b))
  | _, _ =>
      match to_float x with
      | Raise e => Raise e
      | Ok fx =>
          match to_float y with
          | Raise e => Raise e
          | Ok fy => Ok (PyFloat (SFmul prec emax fx fy))
          end
      end
  end.

(** [get_timeout]: [backoff_factor * (2 ** (number_of_retries - 1))]. *)
Definition get_timeout (backoff_factor : number) (number_of_retries : Z)
  : result number :=
  match py_pow2 (number_of_retries - 1) with
  | Raise e => Raise e
  | Ok p => py_mul backoff_factor p
  end.

(** The rational a number stands for; [inf] and [nan] stand for none. *)
Definition float_value (f : spec_float) : option Q :=
  match f with
  | S754_zero _ => Some 0%Q
  | S754_finite s m e =>
      Some ((if s then - inject_Z (Zpos m) else inject_Z (Zpos m)) * 2 ^ e)%Q
  | _ => None
  end.

Definition number_value (x : number) : option Q :=
  match x with
  | PyInt z => Some (inject_Z z)
  | PyFloat f => float_value f
  end.

(** The mantissa of the floats that are a power of two: [2^52]. *)
Definition two_52 : positive := 4503599627370496.

(** The floats among [spec_float]: mantissa and exponent in the range of
    binary64. *)
Definition is_number (x : number) : Prop :=
  match x with
  | PyInt _ => True
  | PyFloat f => valid_binary prec emax f = true
  end.

(** The delay as the specification has it,
    [backoffFactor * 2^(attemptNumber - 1)], in exact arithmetic. *)
Definition computeDelay (backoffFactor : Q) (attemptNumber : Z) : Q :=
  (backoffFactor * 2 ^ (attemptNumber - 1))%Q.

(** Where the delay of a float factor stays a float: the power of two can
    be converted and the product is below [2^1024]. *)
Definition in_float_range (b : number) (vb : Q) (n : Z) : Prop :=
  match b with
  | PyInt _ => True
  | PyFloat _ => (n <= 1024)%Z /\ (computeDelay vb n < 2 ^ 1024)%Q
  end.

(** The arguments a callback is configured with: a plain value, or, once the
    wrapper has substituted them, the exception of the failed attempt or the
    object the method is bound to. *)
Inductive cbarg : Type :=
| AVal (v : value)
| AExc (e : exn)
| ASelf.

(** The positional and the keyword arguments of a call. *)
Record call_args : Type := CallArgs {
  pos : list value;
  kw : list (string * value)
}.

(** What the wrapper does that can be seen from outside, in the order of
    the source.  The logger takes the message it is given and returns. *)
Inductive revent : Type :=
| EvCall (num_attempts : Z)            (* the decorated function is called *)
| EvAttemptFailure (name : string) (args : list cbarg)
                                       (* the callback on attempt failure *)
| EvLogFailed (e : exn) (timeout : number)
                                       (* LOG.error: execution failed *)
| EvSleep (timeout : number)           (* time.sleep(sleep_timeout) *)
| EvLogRetry (num_attempts : Z)        (* LOG.info: Retrying, Attempt #n *)
| EvLogExceeded (num_retries : Z)      (* LOG.error: Failed to execute *)
| EvExceeded (name : string) (args : list cbarg).
                                       (* the callback on exceeded *)

Module Retry.
Section Retry.
(** The object the decorated method is bound to. *)
Context {Self : Type}.

Definition method := list cbarg -> Self -> Self * result value.

(** The decorated function and attribute lookup on [self]. *)
Variable function : call_args -> Self -> Self * result value.
Variable getattr : Self -> string -> option method.

(** [time.sleep]: the exception it raises for a length, [None] when it
    sleeps. *)
Variable time_sleep : number -> option exn.

(** The parameters of [retry(...)]. *)
Variable callback_on_exceeded : option string.
Variable callback_on_attempt_failure : option string.
Variable num_retries : Z.
Variable backoff_factor : number.
Variable callback_on_exceeded_args : list cbarg.

(** The state a call of the wrapper works on: [self], the list
    [callback_on_attempt_failure_args] of the decorator's closure, which
    the wrapper updates in place, and the events so far. *)
Record rstate : Type := RState {
  self_obj : Self;
  attempt_failure_args : list cbarg;
  events : list revent
}.

Definition emit (ev : revent) (st : rstate) : rstate :=
  RState (self_obj st) (attempt_failure_args st) (events st ++ [ev]).

Definition set_self (s : Self) (st : rstate) : rstate :=
  RState s (attempt_failure_args st) (events st).

(** A name given as callback counts when it is a non-empty string. *)
Definition configured (cb : option string) : option string :=
  match cb with
  | Some name => if String.eqb name "" then None else Some name
  | None => None
  end.

(** The loop over [callback_on_attempt_failure_args]: an entry equal to
    ['e'] becomes the exception, an entry equal to ['self'] becomes
    [self]. *)
Definition substitute (e : exn) (a : cbarg) : cbarg :=
  match a with
  | AVal (VStr s) =>
      if String.eqb s "e" then AExc e
      else if String.eqb s "self" then ASelf
      else a
  | _ => a
  end.

(** [getattr(self, name)] applied to the arguments: the lookup comes
    first, and the call, seen as the event [ev], is made when the attribute
    is there. *)
Definition call_method (ev : revent) (name : string) (args : list cbarg)
    (st : rstate) : rstate * result value :=
  match getattr (self_obj st) name with
  | None => (st, Raise (Exc AttributeError (VStr name)))
  | Some m =>
      let '(s, r) := m args (self_obj st) in (set_self s (emit ev st), r)
  end.

(** [time.sleep(t)] *)
Definition sleep (t : number) (st : rstate) : rstate * result unit :=
  match time_sleep t with
  | Some e => (st, Raise e)
  | None => (emit (EvSleep t) st, Ok tt)
  end.

(** The [except] block up to and including the sleep. *)
Definition attempt_failed (e : exn) (num_attempts : Z) (st : rstate)
  : rstate * result unit :=
  let st1 := RState (self_obj st)
                    (map (substitute e) (attempt_failure_args st))
                    (events st) in
  let after_callback :=
    match configured callback_on_attempt_failure with
    | Some name =>
        match call_method (EvAttemptFailure name (attempt_failure_args st1))
                name (attempt_failure_args st1) st1 with
        | (st2, Ok _) => (st2, Ok tt)
        | (st2, Raise e') => (st2, Raise e')
        end
    | None => (st1, Ok tt)
    end in
  match after_callback with
  | (st2, Ok _) =>
      match get_timeout backoff_factor num_attempts with
      | Ok sleep_timeout =>
          sleep sleep_timeout (emit (EvLogFailed e sleep_timeout) st2)
      | Raise e' => (st2, Raise e')
      end
  | (st2, Raise e') => (st2, Raise e')
  end.

(** The [else] branch: all attempts failed. *)
Definition exceeded (st : rstate) : rstate * result value :=
  let st := emit (EvLogExceeded num_retries) st in
  match configured callback_on_exceeded with
  | Some name =>
      match call_method (EvExceeded name callback_on_exceeded_args)
              name callback_on_exceeded_args st with
      | (st1, Ok _) => (st1, Ok VNone)
      | (st1, Raise e) => (st1, Raise e)
      end
  | None => (st, Ok VNone)
  end.

(** [wrapper(self, num_attempts, ...)].  The recursive call passes
    [num_attempts] by keyword next to the starred [args], so a positional
    argument takes its place and the call is refused. *)
Equations? wrapper (num_attempts : Z) (args : call_args) (st : rstate)
  : rstate * result value by wf (Z.to_nat (num_retries - num_attempts)) lt :=
  wrapper num_attempts args st
    with function args (self_obj st) => {
    | (s1, Ok _) => (set_self s1 (emit (EvCall num_attempts) st), Ok VNone);
    | (s1, Raise e)
        with attempt_failed e num_attempts
               (set_self s1 (emit (EvCall num_attempts) st)) => {
        | (st2, Raise e') => (st2, Raise e');
        | (st2, Ok _) with Z_lt_dec num_attempts num_retries => {
            | left _ =>
                let num_attempts1 := num_attempts + 1 in
                let st3 := emit (EvLogRetry num_attempts1) st2 in
                match pos args with
                | [] =>
                    match wrapper (num_attempts1 + 1) args st3 with
                    | (st4, Ok _) => (st4, Ok VNone)
                    | (st4, Raise e') => (st4, Raise e')
                    end
                | _ :: _ =>
                    (st3, Raise (Exc TypeError
                       (VStr "got multiple values for argument 'num_attempts'")))
                end;
            | right _ => exceeded st2 } } }.
Proof. lia. Qed.

(** The decorated function fails on every attempt, whatever the state of
    [self]. *)
Definition fails_always : Prop :=
  forall a s, exists s' e, function a s = (s', Raise e).

(** The callbacks that are configured exist and return. *)
Definition callbacks_return : Prop :=
  forall name s,
    configured callback_on_attempt_failure = Some name \/
    configured callback_on_exceeded = Some name ->
    exists m, getattr s name = Some m /\
      forall a s0, exists s' v, m a s0 = (s', Ok v).

(** At attempt counter [n] the delay is computed and [time.sleep] takes
    it. *)
Definition sleeps_at (n : Z) : Prop :=
  exists t, get_timeout backoff_factor n = Ok t /\ time_sleep t = None.

(** The same at every counter a call that starts at [num_attempts]
    reaches when all attempts fail: [num_attempts], and from there in steps
    of two as long as the counter before is below [num_retries]. *)
Definition sleeps_from (num_attempts : Z) : Prop :=
  forall k, (0 <= k)%Z ->
            (num_attempts + 2 * k <= Z.max num_attempts (num_retries + 1))%Z ->
            sleeps_at (num_attempts + 2 * k).

(** The number of times the decorated function was called. *)
Fixpoint count_calls (evs : list revent) : nat :=
  match evs with
  | [] => 0
  | EvCall _ :: evs' => S (count_calls evs')
  | _ :: evs' => count_calls evs'
  end.

(** The number of times the callback on exceeded was called. *)
Fixpoint count_exceeded (evs : list revent) : nat :=
  match evs with
  | [] => 0
  | EvExceeded _ _ :: evs' => S (count_exceeded evs')
  | _ :: evs' => count_exceeded evs'
  end.
End Retry.
End Retry.

(** ** Python built-ins used by connector.py *)

(** [bool(v)] *)
Definition truthy (v : value) : bool :=
  match v with
  | VNone => false
  | VBool b => b
  | VInt z => negb (z =? 0)%Z
  | VStr s => negb (String.eqb s "")
  | VList l => match l with [] => false | _ :: _ => true end
  | VDict d => match d with [] => false | _ :: _ => true end
  | VObject _ => true
  end.

(** [len(v)]: only strings, lists and dicts have a length. *)
Definition py_len (v : value) : result Z :=
  match v with
  | VStr s => Ok (Z.of_nat (String.length s))
  | VList l => Ok (Z.of_nat (List.length l))
  | VDict d => Ok (Z.of_nat (List.length d))
  | _ => Raise (Exc TypeError (VStr "object has no len()"))
  end.

(** [isinstance(v, dict)] *)
Definition isinstance_dict (v : value) : bool :=
  match v with VDict _ => true | _ => false end.

(** [v[k]] for a string [k]: a dict looks the key up, nothing else takes a
    string as index. *)
Definition py_getitem (v : value) (k : string) : result value :=
  match v with
  | VDict d =>
      match PyDict.get k d with
      | Some x => Ok x
      | None => Raise (Exc KeyError (VStr k))
      end
  | _ => Raise (Exc TypeError (VStr "object is not subscriptable by a string"))
  end.

(** [v.get(k, default)] *)
Definition py_get (v : value) (k : string) (default : value) : result value :=
  match v with
  | VDict d =>
      match PyDict.get k d with
      | Some x => Ok x
      | None => Ok default
      end
  | _ => Raise (Exc AttributeError (VStr "get"))
  end.

(** ** connector.py: the objects *)

Definition loc := nat.          (* an object shared by reference with the caller *)
Definition conn_id := nat.      (* a pika.BlockingConnection *)
Definition chan_id := nat.      (* a channel of a connection *)
Definition callable := string.  (* a function or bound method, known by its name *)

(** [pika.PlainCredentials] and [pika.ConnectionParameters] as built by
    [mq_credentials] and [get_connection_params]. *)
Record PlainCredentials : Type := {
  username : value;
  password : value
}.

Record ConnectionParameters : Type := {
  host : value;
  port : Z;
  virtual_host : string;
  credentials : PlainCredentials;
  extra : list (string * value)
}.

Inductive error_handler : Type :=
| DefaultErrorHandler                    (* MQConnector.default_error_handler *)
| UserErrorHandler (name : callable).

Record ConsumerThread : Type := {
  ident : nat;                           (* which Thread object this is *)
  connection : conn_id;
  callback_func : callable;
  error_func : error_handler;
  queue : string;
  channel : chan_id
}.

Record MQConnector : Type := {
  config : value;
  service_id : string;
  service_name : string;
  consumers : PyDict.t ConsumerThread
}.

Inductive log_level : Type := DEBUG | ERROR.

Inductive log_msg : Type :=
| MsgException (e : exn)
| MsgChannelClosed (cb : callable)
| MsgOccurred (e : exn) (t : ConsumerThread).

(** What the connector asks of the world outside it, in the order asked. *)
Inductive call : Type :=
| Uuid4
| BlockingConnection (params : ConnectionParameters)
| ConnChannel (c : conn_id)
| BasicQos (ch : chan_id) (prefetch_count : Z)
| QueueDeclare (ch : chan_id) (q : string) (auto_delete : bool)
| BasicConsume (ch : chan_id) (cb : callable) (q : string) (auto_ack : bool)
| StartConsuming (ch : chan_id)
| StopConsuming (ch : chan_id)
| ChannelIsOpen (ch : chan_id)
| ChannelClose (ch : chan_id)
| ConnIsOpen (c : conn_id)
| ConnClose (c : conn_id)
| BasicPublish (ch : chan_id) (exchange routing_key body expiration : string)
| ThreadJoin (t : nat)
| CallErrorFunc (h : error_handler) (t : ConsumerThread) (e : exn)
| Log (lvl : log_level) (msg : log_msg).

(** The world outside: what each call answers, given the calls before it.
    [env_unit] answers the calls that return nothing ([None]: it returned,
    [Some e]: it raised [e]), [env_bool] the [is_open] properties,
    [env_handle] the calls that return a connection or a channel.
    [dict_to_b64] is neon_utils' encoder and [py_int] the built-in [int],
    [check_parameters] the validation pika does on connection parameters. *)
Record Env : Type := {
  env_unit : list call -> call -> option exn;
  env_bool : list call -> call -> bool;
  env_handle : list call -> call -> result nat;
  env_uuid : list call -> string;
  dict_to_b64 : value -> result string;
  py_int : value -> result Z;
  check_parameters : ConnectionParameters -> option exn
}.

(** The state the connector's code runs in: the objects shared with the
    caller, the calls made so far, and how many threads were created. *)
Record world : Type := World {
  heap : gmap loc value;
  trace : list call;
  threads : nat
}.

(** ** A state and exception monad *)

Definition M (A : Type) : Type := world -> world * result A.

Definition ret {A} (a : A) : M A := fun w => (w, Ok a).

Definition raise {A} (e : exn) : M A := fun w => (w, Raise e).

Definition bind {A B} (m : M A) (k : A -> M B) : M B :=
  fun w =>
    match m w with
    | (w', Ok a) => k a w'
    | (w', Raise e) => (w', Raise e)
    end.

Notation "'let*' x ':=' m 'in' k" := (bind m (fun x => k))
  (at level 10, x name, m at level 200, k at level 200).

Definition lift {A} (r : result A) : M A := fun w => (w, r).

(** [try: m except Exception as e: h e] *)
Definition try_except {A} (m : M A) (h : exn -> M A) : M A :=
  fun w =>
    match m w with
    | (w', Ok a) => (w', Ok a)
    | (w', Raise e) => h e w'
    end.

(** [try: m finally: f] *)
Definition try_finally {A} (m : M A) (f : M unit) : M A :=
  fun w =>
    match m w with
    | (w', r) =>
        match f w' with
        | (w'', Ok _) => (w'', r)
        | (w'', Raise e) => (w'', Raise e)
        end
    end.

Definition record (c : call) (w : world) : world :=
  World (heap w) (trace w ++ [c]) (threads w).

(** ** config.py *)

(** The files the configuration is read from: [os.path.expanduser],
    [os.path.isfile], and opening a path and reading it with [json.load],
    which gives the document or raises. *)
Record FileSystem : Type := {
  expanduser : string -> string;
  isfile : string -> bool;
  json_load : string -> result value
}.

Module Config.
Section Config.
Variable fs : FileSystem.

Record Configuration : Type := { _config_data : value }.

(** [Configuration.from_file] *)
Definition from_file (self : Configuration) (file_path : string)
  : result Configuration :=
  match json_load fs (expanduser fs file_path) with
  | Ok data => Ok {| _config_data := data |}
  | Raise e => Raise e
  end.

(** The property [config_data]. *)
Definition config_data (self : Configuration) : value := _config_data self.

(** The loop of [load_neon_mq_config]: the first path that is a file is
    read, and the loop ends there. *)
Fixpoint first_config (paths : list string) : result value :=
  match paths with
  | [] => Ok VNone
  | conf :: paths' =>
      if isfile fs conf then
        match from_file {| _config_data := VDict [] |} conf with
        | Ok c => Ok (config_data c)
        | Raise e => Raise e
        end
      else first_config paths'
  end.

Definition valid_config_paths : list string :=
  [expanduser fs "~/.config/neon/mq_config.json";
   expanduser fs "~/.local/share/neon/credentials.json"].

(** [load_neon_mq_config] *)
Definition load_neon_mq_config : result value :=
  match first_config valid_config_paths with
  | Raise e => Raise e
  | Ok config =>
      if negb (truthy config) then Ok VNone
      else
        match config with
        | VDict d =>
            if PyDict.mem "MQ" d then py_getitem config "MQ" else Ok config
        | _ => Raise (Exc AttributeError (VStr "keys"))
        end
  end.
End Config.
End Config.

(** What [run_consumers] asks of the threads: [thread.daemon = daemon] and
    [thread.start()], and what each answers given the calls before it. *)
Inductive thread_call : Type :=
| SetDaemon (t : nat) (daemon : bool)
| ThreadStart (t : nat).

Definition thread_env : Type := list thread_call -> thread_call -> option exn.

Module Connector.
Section Connector.
Variable env : Env.

(** A call that returns nothing, or raises. *)
Definition ext_unit (c : call) : M unit :=
  fun w =>
    match env_unit env (trace w) c with
    | None => (record c w, Ok tt)
    | Some e => (record c w, Raise e)
    end.

(** A property read: [channel.is_open], [connection.is_open]. *)
Definition ext_bool (c : call) : M bool :=
  fun w => (record c w, Ok (env_bool env (trace w) c)).

(** A call that returns a connection or a channel, or raises. *)
Definition ext_handle (c : call) : M nat :=
  fun w => (record c w, env_handle env (trace w) c).

(** [LOG.debug], [LOG.error] *)
Definition log (lvl : log_level) (msg : log_msg) : M unit :=
  fun w => (record (Log lvl msg) w, Ok tt).

(** Reading and updating the object behind a reference.  Every reference
    a caller passes is to an object; one that is not in the heap reads as
    [None]. *)
Definition load (l : loc) : M value :=
  fun w => (w, Ok (default VNone (heap w !! l))).

Definition store (l : loc) (v : value) : M unit :=
  fun w => (World (<[l := v]> (heap w)) (trace w) (threads w), Ok tt).

(** [obj[k] = v] on the object behind [l] *)
Definition setitem (l : loc) (k : string) (v : value) : M unit :=
  let* obj := load l in
  match obj with
  | VDict d => store l (VDict (PyDict.set k v d))
  | _ => raise (Exc TypeError (VStr "object does not support item assignment"))
  end.

(** *** ConsumerThread *)

(** [threading.Thread.__init__(self)]: a new thread object. *)
Definition Thread_init : M nat :=
  fun w => (World (heap w) (trace w) (S (threads w)), Ok (threads w)).

(** [ConsumerThread.__init__] *)
Definition ConsumerThread_init (connection_params : ConnectionParameters)
    (queue : string) (callback_func : callable) (error_func : error_handler)
    (auto_ack : bool) : M ConsumerThread :=
  let* self := Thread_init in
  let* connection := ext_handle (BlockingConnection connection_params) in
  let* channel := ext_handle (ConnChannel connection) in
  let* _ := ext_unit (BasicQos channel 50) in
  let* _ := ext_unit (QueueDeclare channel queue false) in
  let* _ := ext_unit (BasicConsume channel callback_func queue auto_ack) in
  ret {| ident := self; connection := connection;
         callback_func := callback_func; error_func := error_func;
         queue := queue; channel := channel |}.

(** [MQConnector.default_error_handler] *)
Definition default_error_handler (thread : ConsumerThread) (exception : exn)
  : M value :=
  let* _ := log ERROR (MsgOccurred exception thread) in
  ret VNone.

(** [self.error_func(self, e)]: the default handler is the connector's
    own code, any other handler is the caller's and answers as the world
    does. *)
Definition call_error_func (h : error_handler) (self : ConsumerThread)
    (e : exn) : M value :=
  match h with
  | DefaultErrorHandler =>
      fun w => default_error_handler self e
                 (record (CallErrorFunc h self e) w)
  | UserErrorHandler _ =>
      let* _ := ext_unit (CallErrorFunc h self e) in
      ret VNone
  end.

(** [ConsumerThread.run].  [Thread.run] of a thread without target does
    nothing. *)
Definition run (self : ConsumerThread) : M value :=
  try_except
    (let* _ := ext_unit (StartConsuming (channel self)) in
     ret VNone)
    (fun e =>
       match class_of e with
       | ChannelClosed =>
           let* _ := log DEBUG (MsgChannelClosed (callback_func self)) in
           ret VNone
       | _ =>
           let* _ := log ERROR (MsgException e) in
           let* _ := call_error_func (error_func self) self e in
           ret VNone
       end).

(** [ConsumerThread.join] *)
Definition join (self : ConsumerThread) : M value :=
  try_finally
    (try_except
       (let* _ := ext_unit (StopConsuming (channel self)) in
        let* channel_is_open := ext_bool (ChannelIsOpen (channel self)) in
        let* _ := if channel_is_open
                  then ext_unit (ChannelClose (channel self))
                  else ret tt in
        let* connection_is_open := ext_bool (ConnIsOpen (connection self)) in
        let* _ := if connection_is_open
                  then ext_unit (ConnClose (connection self))
                  else ret tt in
        ret VNone)
       (fun x =>
          let* _ := log ERROR (MsgException x) in
          ret VNone))
    (ext_unit (ThreadJoin (ident self))).

(** *** MQConnector *)

(** [mq_credentials] *)
Definition mq_credentials (self : MQConnector) : M PlainCredentials :=
  if negb (truthy (config self))
  then raise (Exc (OtherError "Exception") (VStr "Configuration is not set"))
  else
    let* users := lift (py_getitem (config self) "users") in
    let* user := lift (py_getitem users (service_name self)) in
    let* name := lift (py_get user "user" (VStr "guest")) in
    let* users := lift (py_getitem (config self) "users") in
    let* user := lift (py_getitem users (service_name self)) in
    let* pass := lift (py_get user "password" (VStr "guest")) in
    ret {| username := name; password := pass |}.

(** [get_connection_params] *)
Definition get_connection_params (self : MQConnector) (vhost : string)
    (kwargs : list (string * value)) : M ConnectionParameters :=
  let* server := lift (py_get (config self) "server" (VStr "localhost")) in
  let* port := lift (py_get (config self) "port" (VStr "5672")) in
  let* port := lift (py_int env port) in
  let* creds := mq_credentials self in
  let connection_params :=
    {| host := server; port := port; virtual_host := vhost;
       credentials := creds; extra := kwargs |} in
  match check_parameters env connection_params with
  | Some e => raise e
  | None => ret connection_params
  end.

(** [create_unique_id]: [uuid.uuid4().hex] *)
Definition create_unique_id : M string :=
  fun w => (record Uuid4 w, Ok (env_uuid env (trace w))).

(** [exchange or ''] *)
Definition or_empty (exchange : option string) : string :=
  match exchange with Some s => s | None => "" end.

(** [emit_mq_message].  [request_data] is the caller's object, passed by
    reference. *)
Definition emit_mq_message (connection : conn_id) (queue : string)
    (request_data : loc) (exchange : option string) : M value :=
  let* data := load request_data in
  let* valid :=
    if truthy data then
      let* n := lift (py_len data) in
      if (0 <? n)%Z then ret (isinstance_dict data) else ret false
    else ret false in
  if valid then
    let* message_id := create_unique_id in
    let* _ := setitem request_data "message_id" (VStr message_id) in
    let* channel := ext_handle (ConnChannel connection) in
    let* data := load request_data in
    let* body := lift (dict_to_b64 env data) in
    let* _ := ext_unit (BasicPublish channel (or_empty exchange) queue
                          body "1000") in
    let* _ := ext_unit (ChannelClose channel) in
    ret (VStr message_id)
  else
    raise (Exc ValueError data).

(** [on_error or self.default_error_handler] *)
Definition or_default_error_handler (on_error : option callable)
  : error_handler :=
  match on_error with
  | Some h => UserErrorHandler h
  | None => DefaultErrorHandler
  end.

(** [register_consumer] *)
Definition register_consumer (self : MQConnector) (name vhost queue : string)
    (callback : callable) (on_error : option callable) (auto_ack : bool)
  : M MQConnector :=
  let error_handler := or_default_error_handler on_error in
  let* params := get_connection_params self vhost [] in
  let* thread := ConsumerThread_init params queue callback error_handler
                   auto_ack in
  ret {| config := config self; service_id := service_id self;
         service_name := service_name self;
         consumers := PyDict.set name thread (consumers self) |}.

(** The loop of [stop_consumers]. *)
Fixpoint stop_each (self : MQConnector) (names : list string) : M value :=
  match names with
  | [] => ret VNone
  | name :: names' =>
      let* _ :=
        try_except
          (if PyDict.mem name (consumers self) then
             match PyDict.get name (consumers self) with
             | Some thread => join thread
             | None => raise (Exc KeyError (VStr name))
             end
           else ret VNone)
          (fun e => raise (ExcFrom ChildProcessError e)) in
      stop_each self names'
  end.

(** The names [stop_consumers] goes through: all of them when none is
    given. *)
Definition names_to_stop (self : MQConnector) (names : list string)
  : list string :=
  match names with
  | [] => PyDict.keys (consumers self)
  | _ :: _ => names
  end.

(** [stop_consumers] *)
Definition stop_consumers (self : MQConnector) (names : list string)
  : M value :=
  stop_each self (names_to_stop self names).

(** The calls of an error handler among the calls made, with the thread and
    the exception each was given. *)
Fixpoint error_func_calls (tr : list call)
  : list (error_handler * ConsumerThread * exn) :=
  match tr with
  | [] => []
  | CallErrorFunc h t e :: tr' => (h, t, e) :: error_func_calls tr'
  | _ :: tr' => error_func_calls tr'
  end.

(** The handler [h], called with [self] and [e] after the calls [tr],
    returns.  The default handler always does. *)
Definition handler_returns (h : error_handler) (self : ConsumerThread)
    (e : exn) (tr : list call) : Prop :=
  match h with
  | DefaultErrorHandler => True
  | UserErrorHandler _ => env_unit env tr (CallErrorFunc h self e) = None
  end.

(** The guarded block of [join] as a list of steps, to state what it does:
    a step is a call, or a call made only if a property reads true. *)
Inductive step : Type :=
| Always (c : call)
| IfOpen (test c : call).

(** The calls of a block of steps run in order after the calls [tr], where
    the first step that raises is logged and ends the block. *)
Fixpoint guarded_calls (tr : list call) (steps : list step) : list call :=
  match steps with
  | [] => []
  | Always c :: steps' =>
      match env_unit env tr c with
      | Some x => [c; Log ERROR (MsgException x)]
      | None => c :: guarded_calls (tr ++ [c]) steps'
      end
  | IfOpen test c :: steps' =>
      if env_bool env tr test then
        match env_unit env (tr ++ [test]) c with
        | Some x => [test; c; Log ERROR (MsgException x)]
        | None => test :: c :: guarded_calls (tr ++ [test; c]) steps'
        end
      else test :: guarded_calls (tr ++ [test]) steps'
  end.

(** What [join] asks of the broker before it joins the thread. *)
Definition shutdown_steps (self : ConsumerThread) : list step :=
  [Always (StopConsuming (channel self));
   IfOpen (ChannelIsOpen (channel self)) (ChannelClose (channel self));
   IfOpen (ConnIsOpen (connection self)) (ConnClose (connection self))].

(** Registering one consumer after the other. *)
Record registration : Type := {
  reg_name : string;
  reg_vhost : string;
  reg_queue : string;
  reg_callback : callable;
  reg_on_error : option callable;
  reg_auto_ack : bool
}.

Fixpoint register_all (self : MQConnector) (regs : list registration)
  : M MQConnector :=
  match regs with
  | [] => ret self
  | r :: regs' =>
      let* self' := register_consumer self (reg_name r) (reg_vhost r)
                      (reg_queue r) (reg_callback r) (reg_on_error r)
                      (reg_auto_ack r) in
      register_all self' regs'
  end.
(** [MQConnector.__init__], as the classes derived from it call it. *)
Definition MQConnector_init (fs : FileSystem) (config : value)
    (service_name : string) : M MQConnector :=
  let* config := if truthy config then ret config
                 else lift (Config.load_neon_mq_config fs) in
  let* mq := lift (py_get config "MQ" VNone) in
  let* config := if truthy mq then lift (py_getitem config "MQ")
                 else ret config in
  let* service_id := create_unique_id in
  ret {| config := config; service_id := service_id;
         service_name := service_name; consumers := [] |}.

(** [create_mq_connection] *)
Definition create_mq_connection (self : MQConnector) (vhost : string)
    (kwargs : list (string * value)) : M conn_id :=
  if negb (truthy (config self))
  then raise (Exc (OtherError "Exception") (VStr "Configuration is not set"))
  else
    let* params := get_connection_params self vhost kwargs in
    ext_handle (BlockingConnection params).

(** One call on a thread object. *)
Definition thread_op (tenv : thread_env) (c : thread_call)
    (tr : list thread_call) : list thread_call * result unit :=
  match tenv tr c with
  | None => ((tr ++ [c])%list, Ok tt)
  | Some e => ((tr ++ [c])%list, Raise e)
  end.

(** The loop of [run_consumers]. *)
Fixpoint start_each (tenv : thread_env) (self : MQConnector)
    (names : list string) (daemon : bool) (tr : list thread_call)
  : list thread_call * result value :=
  match names with
  | [] => (tr, Ok VNone)
  | name :: names' =>
      if PyDict.mem name (consumers self) then
        match PyDict.get name (consumers self) with
        | Some thread =>
            match thread_op tenv (SetDaemon (ident thread) daemon) tr with
            | (tr1, Ok _) =>
                match thread_op tenv (ThreadStart (ident thread)) tr1 with
                | (tr2, Ok _) => start_each tenv self names' daemon tr2
                | (tr2, Raise e) => (tr2, Raise e)
                end
            | (tr1, Raise e) => (tr1, Raise e)
            end
        | None => (tr, Raise (Exc KeyError (VStr name)))
        end
      else start_each tenv self names' daemon tr
  end.

(** [run_consumers]: all the consumers when no name is given. *)
Definition run_consumers (tenv : thread_env) (self : MQConnector)
    (names : list string) (daemon : bool) (tr : list thread_call)
  : list thread_call * result value :=
  start_each tenv self (names_to_stop self names) daemon tr.

(** The workers registered under the given names, in the order of the
    names; a name that is not registered gives none. *)
Fixpoint registered (self : MQConnector) (names : list string)
  : list ConsumerThread :=
  match names with
  | [] => []
  | name :: names' =>
      match PyDict.get name (consumers self) with
      | Some thread => thread :: registered self names'
      | None => registered self names'
      end
  end.

(** The threads joined among the calls made. *)
Fixpoint thread_joins (tr : list call) : list nat :=
  match tr with
  | [] => []
  | ThreadJoin t :: tr' => t :: thread_joins tr'
  | _ :: tr' => thread_joins tr'
  end.

(** The five calls that set a worker up. *)
Definition setup_calls (params : ConnectionParameters) (c : conn_id)
    (ch : chan_id) (q : string) (cb : callable) (auto_ack : bool)
  : list call :=
  [BlockingConnection params; ConnChannel c; BasicQos ch 50;
   QueueDeclare ch q false; BasicConsume ch cb q auto_ack].

(** A call that sets something up, as opposed to one that stops, closes,
    joins or publishes. *)
Definition is_setup_call (c : call) : bool :=
  match c with
  | BlockingConnection _ | ConnChannel _ | BasicQos _ _
  | QueueDeclare _ _ _ | BasicConsume _ _ _ _ => true
  | _ => false
  end.
(** The thread objects of the registered workers, in the order of the
    registry. *)
Definition worker_idents (cs : PyDict.t ConsumerThread) : list nat :=
  map (fun kv => ident (snd kv)) cs.

(** What starting a worker asks of its thread. *)
Definition start_calls (daemon : bool) (thread : ConsumerThread)
  : list thread_call :=
  [SetDaemon (ident thread) daemon; ThreadStart (ident thread)].
End Connector.
End Connector.

(** ** Concrete instances *)

Module Examples.
Definition unreachable : exn :=
  Exc (OtherError "ConnectionError") (VStr "unreachable").

(** A method that raises on every call, on an object that counts how
    often its methods were called. *)
Definition always_fails (_ : call_args) (s : nat) : nat * result value :=
  (S s, Raise unreachable).

(** A method that returns a value at once. *)
Definition succeeds (_ : call_args) (s : nat) : nat * result value :=
  (S s, Ok (VInt 42)).

(** Every attribute is a method that returns [None]. *)
Definition any_method (_ : nat) (_ : string) : option (@Retry.method nat) :=
  Some (fun _ s => (s, Ok VNone)).

Definition no_args : call_args := CallArgs [] [].

Definition start : @Retry.rstate nat := Retry.RState 0%nat [] [].

(** The floats [0.1], [0.2], [0.4] and [2.5]. *)
Definition f_0_1 : spec_float := S754_finite false 7205759403792794 (-56).
Definition f_0_2 : spec_float := S754_finite false 7205759403792794 (-55).
Definition f_0_4 : spec_float := S754_finite false 7205759403792794 (-54).
Definition f_2_5 : spec_float := S754_finite false 5629499534213120 (-51).

(** [1e308], the float nearest to it. *)
Definition f_1e308 : spec_float := S754_finite false 5010420900022432 971.

Definition too_large : exn :=
  Exc OverflowError (VStr "timestamp too large to convert to C _PyTime_t").

(** [time.sleep] as CPython has it: the length is kept in nanoseconds in a
    signed 64-bit integer, so a length of [2^63] ns (about 9.2e9 s) or
    more, of either sign, is refused with [OverflowError], then a negative
    length with [ValueError]; [-0.0] is taken.  The limit is tested here on
    the exact value of the length. *)
Definition time_sleep (t : number) : option exn :=
  match number_value t with
  | Some secs =>
      if Qle_bool (2 ^ 63) (Qabs secs * 1000000000) then Some too_large
      else if Qle_bool 0 secs then None
      else Some (Exc ValueError (VStr "sleep length must be non-negative"))
  | None =>
      match t with
      | PyFloat S754_nan =>
          Some (Exc ValueError (VStr "Invalid value NaN (not a number)"))
      | _ => Some too_large
      end
  end.

(** [@retry(callback_on_exceeded='on_exceeded')]: three retries, a
    back-off factor of 5. *)
Definition retry_default (f : call_args -> nat -> nat * result value) :=
  Retry.wrapper f any_method time_sleep (Some "on_exceeded") None 3
    (PyInt 5) [].

(** A method that raises on its first call and returns from then on. *)
Definition fails_once (_ : call_args) (s : nat) : nat * result value :=
  match s with
  | O => (1%nat, Raise unreachable)
  | S _ => (S s, Ok (VStr "connected"))
  end.

(** An object without methods. *)
Definition no_method (_ : nat) (_ : string) : option (@Retry.method nat) :=
  None.

(** The closure of [@retry(callback_on_attempt_failure_args=['e', 'self', 1])]
    before any call. *)
Definition start_with_args : @Retry.rstate nat :=
  Retry.RState 0%nat [AVal (VStr "e"); AVal (VStr "self"); AVal (VInt 1)] [].

(** A broker that is up: every call returns, connections and channels are
    open, handles are numbered by the calls made so far. *)
Definition env_ok : Env := {|
  env_unit := fun _ _ => None;
  env_bool := fun _ _ => true;
  env_handle := fun tr _ => Ok (List.length tr);
  env_uuid := fun _ => "0f8fad5bd9cb469fa16570867728950e";
  dict_to_b64 := fun _ => Ok "eyJkYXRhIjogIkhlbGxvISJ9";
  py_int := fun v =>
    match v with
    | VInt z => Ok z
    | VStr "5672" => Ok 5672
    | _ => Raise (Exc ValueError v)
    end;
  check_parameters := fun _ => None
|}.

Definition boom : exn := Exc (OtherError "AMQPError") (VStr "boom").

Definition not_started : exn :=
  Exc RuntimeError (VStr "cannot join thread before it is started").

(** As [env_ok], but asking the broker to stop delivery fails. *)
Definition env_stop_fails : Env := {|
  env_unit := fun _ c =>
    match c with StopConsuming _ => Some boom | _ => None end;
  env_bool := env_bool env_ok;
  env_handle := env_handle env_ok;
  env_uuid := env_uuid env_ok;
  dict_to_b64 := dict_to_b64 env_ok;
  py_int := py_int env_ok;
  check_parameters := check_parameters env_ok
|}.

(** As [env_ok], but every channel and connection reads closed. *)
Definition env_all_closed : Env := {|
  env_unit := env_unit env_ok;
  env_bool := fun _ _ => false;
  env_handle := env_handle env_ok;
  env_uuid := env_uuid env_ok;
  dict_to_b64 := dict_to_b64 env_ok;
  py_int := py_int env_ok;
  check_parameters := check_parameters env_ok
|}.

(** As [env_ok], but the broker refuses every message. *)
Definition env_publish_fails : Env := {|
  env_unit := fun _ c =>
    match c with BasicPublish _ _ _ _ _ => Some boom | _ => None end;
  env_bool := env_bool env_ok;
  env_handle := env_handle env_ok;
  env_uuid := env_uuid env_ok;
  dict_to_b64 := dict_to_b64 env_ok;
  py_int := py_int env_ok;
  check_parameters := check_parameters env_ok
|}.

(** Threads that accept everything. *)
Definition tenv_ok : thread_env := fun _ _ => None.

(** Thread 0 was started before: its daemon flag can no longer be set. *)
Definition tenv_started : thread_env := fun _ c =>
  match c with
  | SetDaemon 0 _ =>
      Some (Exc RuntimeError
              (VStr "cannot set daemon status of active thread"))
  | ThreadStart 0 =>
      Some (Exc RuntimeError (VStr "threads can only be started once"))
  | _ => None
  end.

(** No configuration file. *)
Definition fs_none : FileSystem := {|
  expanduser := fun path => path;
  isfile := fun _ => false;
  json_load := fun path => Raise (Exc (OtherError "FileNotFoundError") (VStr path))
|}.

(** As [env_ok], but thread 0 was never started, so joining it fails. *)
Definition env_join_fails : Env := {|
  env_unit := fun _ c =>
    match c with ThreadJoin 0 => Some not_started | _ => None end;
  env_bool := env_bool env_ok;
  env_handle := env_handle env_ok;
  env_uuid := env_uuid env_ok;
  dict_to_b64 := dict_to_b64 env_ok;
  py_int := py_int env_ok;
  check_parameters := check_parameters env_ok
|}.

(** As [env_ok], but the consumer callback raises inside the receive loop. *)
Definition env_callback_raises : Env := {|
  env_unit := fun _ c =>
    match c with
    | StartConsuming _ =>
        Some (Exc (OtherError "Exception") (VStr "Exception to Handle"))
    | _ => None
    end;
  env_bool := env_bool env_ok;
  env_handle := env_handle env_ok;
  env_uuid := env_uuid env_ok;
  dict_to_b64 := dict_to_b64 env_ok;
  py_int := py_int env_ok;
  check_parameters := check_parameters env_ok
|}.

(** The consumer thread number [n], on connection and channel [n]. *)
Definition thread (n : nat) (h : error_handler) : ConsumerThread :=
  {| ident := n; connection := n; callback_func := "callback_func";
     error_func := h; queue := "test"; channel := n |}.

Definition test_config : value :=
  VDict [("users", VDict [("test", VDict [("user", VStr "neon");
                                          ("password", VStr "secret")])]);
         ("server", VStr "localhost"); ("port", VInt 5672)].

(** The first configuration file holds the settings under [MQ]; there is
    no second one. *)
Definition fs_first : FileSystem := {|
  expanduser := fun path => path;
  isfile := fun path => String.eqb path "~/.config/neon/mq_config.json";
  json_load := fun _ => Ok (VDict [("MQ", test_config)])
|}.

(** The parameters [get_connection_params] builds from [test_config] for
    the virtual host [/test]. *)
Definition test_params : ConnectionParameters :=
  {| host := VStr "localhost"; port := 5672; virtual_host := "/test";
     credentials := {| username := VStr "neon"; password := VStr "secret" |};
     extra := [] |}.

(** A connector with the given consumers. *)
Definition connector (cs : PyDict.t ConsumerThread) : MQConnector :=
  {| config := test_config; service_id := "c0ffee";
     service_name := "test"; consumers := cs |}.

Definition two_consumers : MQConnector :=
  connector [("test1", thread 0 DefaultErrorHandler);
             ("test2", thread 1 DefaultErrorHandler)].

(** Nothing has happened yet; the caller holds [payload] at location 0. *)
Definition world_with (payload : value) : world :=
  World {[ 0%nat := payload ]} [] 0.

(** Nothing has happened yet and nothing is shared. *)
Definition idle : world := World ∅ [] 0.

Definition hello : value := VDict [("data", VStr "Hello!")].

Definition reg (name q : string) : Connector.registration :=
  {| Connector.reg_name := name; Connector.reg_vhost := "/test";
     Connector.reg_queue := q; Connector.reg_callback := "callback_func";
     Connector.reg_on_error := None; Connector.reg_auto_ack := false |}.
End Examples.

(** * Properties *)

Local Open Scope list_scope.

(** ** Dicts *)

Module PyDictFacts.
Lemma get_set_eq {V} (k : string) (v : V) (d : PyDict.t V) :
  PyDict.get k (PyDict.set k v d) = Some v.
Proof.
  induction d as [|[k' v'] d IH]; simpl.
  - now rewrite String.eqb_refl.
  - destruct (String.eqb k k') eqn:Hk; simpl; rewrite ?Hk, ?String.eqb_refl; auto.
Qed.

Lemma get_set_ne {V} (k k0 : string) (v : V) (d : PyDict.t V) :
  k0 <> k -> PyDict.get k0 (PyDict.set k v d) = PyDict.get k0 d.
Proof.
  intros Hne. induction d as [|[k' v'] d IH]; simpl.
  - apply String.eqb_neq in Hne. now rewrite Hne.
  - destruct (String.eqb k k') eqn:Hk; simpl.
    + apply String.eqb_eq in Hk. subst k'.
      apply String.eqb_neq in Hne. now rewrite Hne.
    + now rewrite IH.
Qed.

Lemma get_mem {V} (name : string) (d : PyDict.t V) (v : V) :
  PyDict.get name d = Some v -> PyDict.mem name d = true.
Proof. unfold PyDict.mem. now intros ->. Qed.

Lemma keys_set_in {V} (k k0 : string) (v : V) (d : PyDict.t V) :
  In k0 (PyDict.keys (PyDict.set k v d)) <-> k0 = k \/ In k0 (PyDict.keys d).
Proof.
  unfold PyDict.keys. induction d as [|[k' v'] d IH]; simpl.
  - intuition congruence.
  - destruct (String.eqb k k') eqn:Hk; simpl.
    + apply String.eqb_eq in Hk. subst k'. intuition congruence.
    + rewrite IH. intuition congruence.
Qed.

Lemma keys_set_NoDup {V} (k : string) (v : V) (d : PyDict.t V) :
  List.NoDup (PyDict.keys d) -> List.NoDup (PyDict.keys (PyDict.set k v d)).
Proof.
  unfold PyDict.keys. induction d as [|[k' v'] d IH]; simpl; intros Hnd.
  - constructor; [intros []|constructor].
  - inversion Hnd as [|? ? Hnotin Hnd']; subst.
    destruct (String.eqb k k') eqn:Hk; simpl.
    + apply String.eqb_eq in Hk. subst k'. now constructor.
    + constructor; [|now apply IH].
      intros Hin. apply (keys_set_in k k' v d) in Hin.
      apply String.eqb_neq in Hk. destruct Hin; [congruence|contradiction].
Qed.

(** Setting a key that is there keeps the keys and their order. *)
Lemma keys_set_mem {V} (k : string) (v : V) (d : PyDict.t V) :
  PyDict.mem k d = true -> PyDict.keys (PyDict.set k v d) = PyDict.keys d.
Proof.
  unfold PyDict.mem, PyDict.keys. induction d as [|[k' v'] d IH]; simpl.
  - discriminate.
  - destruct (String.eqb k k') eqn:Hk; simpl.
    + apply String.eqb_eq in Hk. now subst k'.
    + intros Hm. now rewrite IH.
Qed.
End PyDictFacts.

(** ** Floats *)

Module FloatFacts.
Lemma digits2_pos_size (m : positive) : digits2_pos m = Pos.size m.
Proof. induction m; simpl; congruence. Qed.

Lemma Zdigits2_log2 (m : positive) :
  Zpos (digits2_pos m) = (Z.log2 (Zpos m) + 1)%Z.
Proof.
  rewrite digits2_pos_size. destruct m; simpl; lia.
Qed.

Lemma shr_1_even (z : Z) :
  (0 < z)%Z ->
  shr_1 (Build_shr_record (2 * z) false false) = Build_shr_record z false false.
Proof. destruct z; try lia. reflexivity. Qed.

(** Shifting out bits that are zero loses nothing. *)
Lemma iter_shr_1_exact (p : positive) : forall m0 : Z,
  (0 < m0)%Z ->
  iter_pos shr_1 p (Build_shr_record (m0 * 2 ^ Zpos p) false false) =
  Build_shr_record m0 false false.
Proof.
  induction p as [p IH|p IH|]; intros m0 Hm0.
  - change (iter_pos shr_1 p~1 ?x)
      with (iter_pos shr_1 p (iter_pos shr_1 p (shr_1 x))).
    replace (m0 * 2 ^ Zpos p~1)%Z with (2 * ((m0 * 2 ^ Zpos p) * 2 ^ Zpos p))%Z.
    + rewrite shr_1_even by nia.
      rewrite IH by nia. now apply IH.
    + replace (Zpos p~1) with (Zpos p + Zpos p + 1)%Z by lia.
      rewrite !Z.pow_add_r, Z.pow_1_r by lia. ring.
  - change (iter_pos shr_1 p~0 ?x) with (iter_pos shr_1 p (iter_pos shr_1 p x)).
    replace (m0 * 2 ^ Zpos p~0)%Z with ((m0 * 2 ^ Zpos p) * 2 ^ Zpos p)%Z.
    + rewrite IH by nia. now apply IH.
    + replace (Zpos p~0) with (Zpos p + Zpos p)%Z by lia.
      rewrite Z.pow_add_r by lia. ring.
  - change (iter_pos shr_1 1 ?x) with (shr_1 x).
    replace (m0 * 2 ^ 1)%Z with (2 * m0)%Z by ring.
    now apply shr_1_even.
Qed.

(** Rounding a mantissa whose low [j] bits are zero and whose other bits
    are a canonical mantissa is exact. *)
Lemma binary_round_aux_exact (p e_max : Z) (s : bool) (m0 : positive)
    (j e : Z) :
  (0 <= j)%Z ->
  canonical_mantissa p e_max m0 (e + j) = true ->
  binary_round_aux p e_max s (Zpos m0 * 2 ^ j) e loc_Exact =
  if (e + j <=? e_max - p)%Z then S754_finite s m0 (e + j)
  else S754_infinity s.
Proof.
  intros Hj Hcan. unfold canonical_mantissa in Hcan.
  apply Z.eqb_eq in Hcan. rewrite Zdigits2_log2 in Hcan.
  unfold binary_round_aux, shr_fexp.
  assert (Hpos : (0 < Zpos m0 * 2 ^ j)%Z).
  { apply Z.mul_pos_pos; [lia|]. apply Z.pow_pos_nonneg; lia. }
  assert (Hdig : Zdigits2 (Zpos m0 * 2 ^ j) = (Z.log2 (Zpos m0) + 1 + j)%Z).
  { destruct (Zpos m0 * 2 ^ j)%Z as [|q|q] eqn:Hq; try lia.
    unfold Zdigits2. rewrite Zdigits2_log2, <- Hq.
    rewrite Z.log2_mul_pow2 by lia. lia. }
  rewrite Hdig.
  replace (Z.log2 (Zpos m0) + 1 + j + e)%Z
    with (Z.log2 (Zpos m0) + 1 + (e + j))%Z by lia.
  rewrite Hcan. replace (e + j - e)%Z with j by lia.
  assert (Hshr : shr (shr_record_of_loc (Zpos m0 * 2 ^ j) loc_Exact) e j =
                 (Build_shr_record (Zpos m0) false false, (e + j)%Z)).
  { unfold shr, shr_record_of_loc. destruct j as [|q|q]; try lia.
    - rewrite Z.pow_0_r, Z.mul_1_r, Z.add_0_r. reflexivity.
    - rewrite iter_shr_1_exact by lia. reflexivity. }
  rewrite Hshr. cbn [shr_m loc_of_shr_record round_nearest_even].
  unfold Zdigits2. rewrite Zdigits2_log2, Hcan, Z.sub_diag.
  cbn [shr shr_record_of_loc shr_m]. reflexivity.
Qed.

Lemma Pos_iter_xO (q d : positive) :
  Zpos (Pos.iter xO q d) = (Zpos q * 2 ^ Zpos d)%Z.
Proof.
  induction d as [|d IH] using Pos.peano_ind.
  - simpl. lia.
  - rewrite Pos.iter_succ, Pos2Z.inj_xO, IH, Pos2Z.inj_succ, Z.pow_succ_r by lia.
    ring.
Qed.

Lemma canonical_two_52 (k : Z) :
  (0 <= k)%Z -> canonical_mantissa prec emax two_52 (k - 52) = true.
Proof.
  intros Hk. unfold canonical_mantissa, fexp, emin, prec, emax.
  change (digits2_pos two_52) with 53%positive.
  apply Z.eqb_eq. lia.
Qed.

(** [float(2 ** k)]: exact while [k <= 1023], refused from [2 ** 1024]
    on. *)
Lemma float_of_int_pow2 (k : Z) :
  (0 <= k)%Z ->
  float_of_int (2 ^ k) =
  if (k <=? 1023)%Z then Ok (S754_finite false two_52 (k - 52))
  else Raise (Exc OverflowError (VStr "int too large to convert to float")).
Proof.
  intros Hk. unfold float_of_int, binary_normalize.
  assert (Hpos : (0 < 2 ^ k)%Z) by (apply Z.pow_pos_nonneg; lia).
  destruct (2 ^ k)%Z as [|q|q] eqn:Hq; try lia.
  unfold binary_round.
  rewrite Zdigits2_log2, <- Hq, Z.log2_pow2 by lia.
  assert (Hfexp : fexp prec emax (k + 1 + 0) = (k - 52)%Z).
  { unfold fexp, emin, prec, emax. lia. }
  rewrite Hfexp. unfold shl_align.
  destruct (k - 52 - 0)%Z as [|d|d] eqn:Hd.
  - assert (k = 52)%Z by lia. subst k.
    assert (q = two_52) by (unfold two_52; injection Hq as <-; reflexivity).
    subst q.
    pose proof (binary_round_aux_exact prec emax false two_52 0 0 (Z.le_refl 0)
                  (canonical_two_52 52 Hk)) as Hr.
    rewrite Z.pow_0_r, Z.mul_1_r in Hr. rewrite Hr. reflexivity.
  - pose proof (binary_round_aux_exact prec emax false two_52 (k - 52) 0) as Hr.
    replace (0 + (k - 52))%Z with (k - 52)%Z in Hr by lia.
    replace (Zpos two_52 * 2 ^ (k - 52))%Z with (Zpos q) in Hr.
    + rewrite Hr by (try apply canonical_two_52; lia).
      unfold emax, prec.
      destruct (k - 52 <=? 1024 - 53)%Z eqn:Hle;
        destruct (k <=? 1023)%Z eqn:Hle'; try reflexivity; lia.
    + rewrite <- Hq. change (Zpos two_52) with (2 ^ 52)%Z.
      rewrite <- Z.pow_add_r by lia. f_equal. lia.
  - assert (Hmz : Pos.iter xO q d = two_52).
    { apply Pos2Z.inj. rewrite Pos_iter_xO, <- Hq.
      rewrite <- Z.pow_add_r by lia.
      replace (k + Zpos d)%Z with 52%Z by lia. reflexivity. }
    rewrite Hmz.
    pose proof (binary_round_aux_exact prec emax false two_52 0 (k - 52)
                  (Z.le_refl 0)) as Hr.
    rewrite Z.pow_0_r, Z.mul_1_r, Z.add_0_r in Hr.
    rewrite Hr by (apply canonical_two_52; lia).
    unfold emax, prec.
    destruct (k - 52 <=? 1024 - 53)%Z eqn:Hle;
      destruct (k <=? 1023)%Z eqn:Hle'; try reflexivity; lia.
Qed.

(** The product of a float and a power of two that is a float: the
    mantissa is kept (shifted for a subnormal float), the exponent moves,
    and the result is [inf] when the exponent leaves the range. *)
Lemma SFmul_pow2 (s : bool) (mx : positive) (ex k : Z) :
  bounded prec emax mx ex = true -> (0 <= k <= 1023)%Z ->
  let e' := fexp prec emax (Zpos (digits2_pos mx) + ex + k) in
  (0 <= ex + k - e')%Z /\
  SFmul prec emax (S754_finite s mx ex) (S754_finite false two_52 (k - 52)) =
  if (e' <=? emax - prec)%Z
  then S754_finite s (Z.to_pos (Zpos mx * 2 ^ (ex + k - e'))) e'
  else S754_infinity s.
Proof.
  intros Hb Hk e'. unfold bounded in Hb.
  apply andb_true_iff in Hb. destruct Hb as [Hcan Hex].
  unfold canonical_mantissa in Hcan. apply Z.eqb_eq in Hcan.
  assert (He' : e' = fexp prec emax (Zpos (digits2_pos mx) + ex + k))
    by reflexivity.
  clearbody e'. rewrite Zdigits2_log2 in Hcan, He'.
  pose proof (Z.log2_nonneg (Zpos mx)) as Hlog.
  unfold fexp, emin, prec, emax in Hcan, He'.
  assert (Ha : (0 <= ex + k - e')%Z) by lia.
  split; [exact Ha|].
  assert (Hm0 : (0 < Zpos mx * 2 ^ (ex + k - e'))%Z).
  { apply Z.mul_pos_pos; [lia|]. apply Z.pow_pos_nonneg; lia. }
  unfold SFmul. rewrite xorb_false_r.
  replace (Zpos (mx * two_52))
    with (Zpos (Z.to_pos (Zpos mx * 2 ^ (ex + k - e'))) *
          2 ^ (e' - (ex + (k - 52))))%Z.
  - rewrite binary_round_aux_exact.
    + replace (ex + (k - 52) + (e' - (ex + (k - 52))))%Z with e' by lia.
      reflexivity.
    + lia.
    + unfold canonical_mantissa. apply Z.eqb_eq.
      rewrite Zdigits2_log2, Z2Pos.id by exact Hm0.
      rewrite Z.log2_mul_pow2 by lia.
      unfold fexp, emin, prec, emax. lia.
  - rewrite Z2Pos.id by exact Hm0.
    rewrite <- Z.mul_assoc, <- Z.pow_add_r by lia.
    replace (ex + k - e' + (e' - (ex + (k - 52))))%Z with 52%Z by lia.
    rewrite Pos2Z.inj_mul. reflexivity.
Qed.

Lemma Qpower_2_inject (a : Z) : (0 <= a)%Z -> (inject_Z (2 ^ a) == 2 ^ a)%Q.
Proof. intros Ha. now rewrite Zpower_Qpower. Qed.

Lemma two_neq_0 : ~ (2 == 0)%Q.
Proof. discriminate. Qed.

(** A positive float below [2^1024 / 2^k] has its leading bit below
    [2^(1024 - k)]. *)
Lemma float_range_exponent (mx : positive) (ex k : Z) :
  (inject_Z (Zpos mx) * 2 ^ ex * 2 ^ k < 2 ^ 1024)%Q ->
  (Z.log2 (Zpos mx) + ex + k < 1024)%Z.
Proof.
  intros Hlt.
  apply Qpower_lt_compat_l_inv with (q := 2%Q); [|reflexivity].
  eapply Qle_lt_trans; [|exact Hlt].
  rewrite !Qpower_plus by apply two_neq_0.
  apply Qmult_le_compat_r; [|apply Qpower_0_le; discriminate].
  apply Qmult_le_compat_r; [|apply Qpower_0_le; discriminate].
  rewrite <- Qpower_2_inject by apply Z.log2_nonneg.
  rewrite <- Zle_Qle. apply Z.log2_spec. lia.
Qed.
End FloatFacts.

(** ** get_timeout *)

(** With an int factor and an attempt number from 1 on, everything is an
    int. *)
Lemma get_timeout_int (b n : Z) :
  (1 <= n)%Z -> get_timeout (PyInt b) n = Ok (PyInt (b * 2 ^ (n - 1))).
Proof.
  intros Hn. unfold get_timeout, py_pow2.
  destruct (0 <=? n - 1)%Z eqn:Hle; [reflexivity|lia].
Qed.

(** With a float factor the power of two is converted: this is refused
    from [2 ** 1024] on. *)
Lemma get_timeout_float (f : spec_float) (n : Z) :
  (1 <= n)%Z ->
  get_timeout (PyFloat f) n =
  if (n <=? 1024)%Z
  then Ok (PyFloat (SFmul prec emax f
                      (S754_finite false two_52 (n - 1 - 52))))
  else Raise (Exc OverflowError (VStr "int too large to convert to float")).
Proof.
  intros Hn. unfold get_timeout, py_pow2.
  destruct (0 <=? n - 1)%Z eqn:Hle; [|lia].
  unfold py_mul, to_float. rewrite FloatFacts.float_of_int_pow2 by lia.
  destruct (n - 1 <=? 1023)%Z eqn:H1; destruct (n <=? 1024)%Z eqn:H2;
    try reflexivity; lia.
Qed.

Lemma get_timeout_exact (b : number) (vb : Q) (n : Z) :
  is_number b -> number_value b = Some vb -> (0 < vb)%Q ->
  (1 <= n)%Z -> in_float_range b vb n ->
  exists t vt,
    get_timeout b n = Ok t /\ number_value t = Some vt /\
    (vt == computeDelay vb n)%Q.
Proof.
  intros Hnum Hvb Hpos Hn Hrange. destruct b as [z|f].
  - rewrite get_timeout_int by exact Hn.
    injection Hvb as <-. eexists _, _. split; [reflexivity|].
    split; [reflexivity|]. unfold computeDelay.
    rewrite inject_Z_mult, FloatFacts.Qpower_2_inject by lia. reflexivity.
  - destruct Hrange as [Hle Hlt]. simpl in Hnum, Hvb.
    destruct f as [s|s| |s mx ex]; try discriminate.
    { injection Hvb as <-. discriminate. }
    simpl in Hvb. injection Hvb as <-.
    destruct s.
    { exfalso.
      assert (H : (0 <= inject_Z (Zpos mx) * 2 ^ ex)%Q).
      { apply Qmult_le_0_compat; [discriminate|].
        apply Qpower_0_le. discriminate. }
      apply Qopp_le_compat in H.
      assert (Heq : (- inject_Z (Zpos mx) * 2 ^ ex ==
                     - (inject_Z (Zpos mx) * 2 ^ ex))%Q) by ring.
      rewrite Heq in Hpos. exact (Qlt_not_le _ _ Hpos H). }
    rewrite get_timeout_float by exact Hn.
    destruct (n <=? 1024)%Z eqn:Hn'; [|lia].
    destruct (FloatFacts.SFmul_pow2 false mx ex (n - 1) Hnum) as [Ha Hmul];
      [lia|].
    rewrite Hmul. clear Hmul.
    unfold computeDelay in Hlt.
    apply FloatFacts.float_range_exponent in Hlt.
    set (e' := fexp prec emax (Zpos (digits2_pos mx) + ex + (n - 1))) in *.
    assert (He' : (e' <= emax - prec)%Z).
    { subst e'. rewrite FloatFacts.Zdigits2_log2.
      unfold fexp, emin, emax, prec. lia. }
    apply Z.leb_le in He'. rewrite He'.
    eexists _, _. split; [reflexivity|]. split; [reflexivity|].
    unfold computeDelay.
    assert (Hm0 : (0 < Zpos mx * 2 ^ (ex + (n - 1) - e'))%Z).
    { apply Z.mul_pos_pos; [lia|]. apply Z.pow_pos_nonneg; lia. }
    rewrite Z2Pos.id by exact Hm0.
    rewrite inject_Z_mult, FloatFacts.Qpower_2_inject by exact Ha.
    rewrite <- Qmult_assoc, <- Qpower_plus by apply FloatFacts.two_neq_0.
    replace (ex + (n - 1) - e' + e')%Z with (ex + (n - 1))%Z by lia.
    rewrite Qpower_plus by apply FloatFacts.two_neq_0. ring.
Qed.

Lemma computeDelay_mono (vb : Q) (n m : Z) :
  (0 < vb)%Q -> (n <= m)%Z -> (computeDelay vb n <= computeDelay vb m)%Q.
Proof.
  intros Hpos Hnm. unfold computeDelay.
  apply Qmult_le_l; [exact Hpos|].
  apply Qpower_le_compat_l; [lia|discriminate].
Qed.

(** The values of the docstring of [get_timeout], and the next one; the
    first delay of the default back-off factor. *)
Example get_timeout_examples :
  get_timeout (PyFloat Examples.f_0_1) 1 = Ok (PyFloat Examples.f_0_1) /\
  get_timeout (PyFloat Examples.f_0_1) 2 = Ok (PyFloat Examples.f_0_2) /\
  get_timeout (PyFloat Examples.f_0_1) 3 = Ok (PyFloat Examples.f_0_4) /\
  get_timeout (PyInt 5) 0 = Ok (PyFloat Examples.f_2_5).
Proof. repeat split. Qed.

(** C3: for a positive back-off factor [b] and attempt numbers
    [1 <= n <= m], where [b] is an int, or a float with [m <= 1024] and
    [b * 2^(m-1)] below [2^1024]: [get_timeout] returns at [n] and at [m],
    what it returns is exactly the delay of the specification,
    [b * 2^(n-1)] and [b * 2^(m-1)], and it does not decrease from [n] to
    [m].  [get_timeout] is a function of its two arguments and nothing
    else. *)
Theorem get_timeout_exact_monotone (b : number) (vb : Q) (n m : Z) :
  is_number b -> number_value b = Some vb -> (0 < vb)%Q ->
  (1 <= n)%Z -> (n <= m)%Z -> in_float_range b vb m ->
  exists t t' vt vt',
    get_timeout b n = Ok t /\ get_timeout b m = Ok t' /\
    number_value t = Some vt /\ number_value t' = Some vt' /\
    (vt == computeDelay vb n)%Q /\ (vt' == computeDelay vb m)%Q /\
    (vt <= vt')%Q.
Proof.
  intros Hnum Hvb Hpos Hn Hnm Hrange.
  assert (Hrange_n : in_float_range b vb n).
  { destruct b; [exact I|]. destruct Hrange as [Hle Hlt].
    split; [lia|]. eapply Qle_lt_trans; [|exact Hlt].
    now apply computeDelay_mono. }
  destruct (get_timeout_exact b vb n Hnum Hvb Hpos Hn Hrange_n)
    as (t & vt & Ht & Hvt & Heq).
  destruct (get_timeout_exact b vb m Hnum Hvb Hpos ltac:(lia) Hrange)
    as (t' & vt' & Ht' & Hvt' & Heq').
  exists t, t', vt, vt'. repeat split; try assumption.
  rewrite Heq, Heq'. now apply computeDelay_mono.
Qed.

Lemma get_timeout_exact_monotone_witness :
  exists t t' vt vt',
    get_timeout (PyFloat Examples.f_0_1) 2 = Ok t /\
    get_timeout (PyFloat Examples.f_0_1) 3 = Ok t' /\
    number_value t = Some vt /\ number_value t' = Some vt' /\
    (vt == computeDelay (inject_Z 7205759403792794 * 2 ^ (-56)) 2)%Q /\
    (vt' == computeDelay (inject_Z 7205759403792794 * 2 ^ (-56)) 3)%Q /\
    (vt <= vt')%Q.
Proof.
  apply (get_timeout_exact_monotone (PyFloat Examples.f_0_1)
           (inject_Z 7205759403792794 * 2 ^ (-56)) 2 3).
  - reflexivity.
  - reflexivity.
  - reflexivity.
  - lia.
  - lia.
  - split; [lia|]. vm_compute. reflexivity.
Defined.

(** Outside that range the delay is not the delay of the specification:
    with the float factor 0.1 at attempt 1100 [2 ** 1099] is too large to
    be converted and [get_timeout] raises, and with the factor 1e308 at
    attempt 3 the product is [inf]. *)
Lemma get_timeout_overflow_counterexample :
  get_timeout (PyFloat Examples.f_0_1) 1100 =
    Raise (Exc OverflowError (VStr "int too large to convert to float")) /\
  get_timeout (PyFloat Examples.f_1e308) 3 = Ok (PyFloat (S754_infinity false)) /\
  number_value (PyFloat (S754_infinity false)) = None.
Proof. repeat split; vm_compute; reflexivity. Qed.

(** ** The retry wrapper *)

Module RetryFacts.
Section Facts.
Context {Self : Type}.
Variable function : call_args -> Self -> Self * result value.
Variable getattr : Self -> string -> option (@Retry.method Self).
Variable time_sleep : number -> option exn.
Variable callback_on_exceeded : option string.
Variable callback_on_attempt_failure : option string.
Variable num_retries : Z.
Variable backoff_factor : number.
Variable callback_on_exceeded_args : list cbarg.

Abbreviation wrapper :=
  (Retry.wrapper function getattr time_sleep callback_on_exceeded
     callback_on_attempt_failure num_retries backoff_factor
     callback_on_exceeded_args).
Abbreviation attempt_failed :=
  (Retry.attempt_failed getattr time_sleep callback_on_attempt_failure
     backoff_factor).
Abbreviation sleeps_at := (Retry.sleeps_at time_sleep backoff_factor).
Abbreviation sleeps_from :=
  (Retry.sleeps_from time_sleep num_retries backoff_factor).
Abbreviation exceeded :=
  (Retry.exceeded getattr callback_on_exceeded num_retries
     callback_on_exceeded_args).

(** Whatever happens, a call that returns, returns [None]. *)
Lemma wrapper_Ok_None num_attempts args st st' v :
  wrapper num_attempts args st = (st', Ok v) -> v = VNone.
Proof.
  funelim (wrapper num_attempts args st).
  - congruence.
  - congruence.
  - destruct (pos args); [|congruence].
    destruct (wrapper _ _ _) as [st4 [?|?]]; congruence.
  - unfold Retry.exceeded.
    destruct (Retry.configured _); [|congruence].
    destruct (Retry.call_method _ _ _ _ _) as [st1 [?|?]]; congruence.
Qed.

(** A first attempt that succeeds ends the call, and its value is dropped. *)
Lemma wrapper_success num_attempts args st s1 r :
  function args (Retry.self_obj st) = (s1, Ok r) ->
  wrapper num_attempts args st =
    (Retry.set_self s1 (Retry.emit (EvCall num_attempts) st), Ok VNone).
Proof.
  intros Hf. funelim (wrapper num_attempts args st); congruence.
Qed.

(** C10: the function produced by the retry decorator returns [None]:
    every call that returns gives [None], and when the first attempt
    succeeds with some result [r], the call returns, and returns [None]
    instead of [r]. *)
Theorem wrapper_discards_result num_attempts args st :
  (forall st' v, wrapper num_attempts args st = (st', Ok v) -> v = VNone) /\
  (forall s1 r, function args (Retry.self_obj st) = (s1, Ok r) ->
     snd (wrapper num_attempts args st) = Ok VNone).
Proof.
  split.
  - intros st' v. apply wrapper_Ok_None.
  - intros s1 r Hf. now rewrite (wrapper_success _ _ _ _ _ Hf).
Qed.

Lemma count_calls_app l1 l2 :
  Retry.count_calls (l1 ++ l2) = (Retry.count_calls l1 + Retry.count_calls l2)%nat.
Proof.
  induction l1 as [|ev l1 IH]; [reflexivity|].
  destruct ev; simpl; rewrite IH; reflexivity.
Qed.

Lemma count_exceeded_app l1 l2 :
  Retry.count_exceeded (l1 ++ l2) =
  (Retry.count_exceeded l1 + Retry.count_exceeded l2)%nat.
Proof.
  induction l1 as [|ev l1 IH]; [reflexivity|].
  destruct ev; simpl; rewrite IH; reflexivity.
Qed.

Hypothesis function_fails : Retry.fails_always function.

Hypothesis callbacks_return :
  Retry.callbacks_return getattr callback_on_exceeded
    callback_on_attempt_failure.

Lemma call_method_returns ev name a st :
  Retry.configured callback_on_attempt_failure = Some name \/
  Retry.configured callback_on_exceeded = Some name ->
  exists s' v,
    Retry.call_method getattr ev name a st =
      (Retry.set_self s' (Retry.emit ev st), Ok v).
Proof.
  intros Hname. unfold Retry.call_method.
  destruct (callbacks_return name (Retry.self_obj st) Hname) as (m & -> & Hm).
  destruct (Hm a (Retry.self_obj st)) as (s' & v & ->). eauto.
Qed.

(** A failed attempt calls the callback if there is one, sleeps, and goes
    on: it does not call the operation and does not give up. *)
Lemma attempt_failed_returns e num_attempts st :
  sleeps_at num_attempts ->
  exists st2,
    attempt_failed e num_attempts st = (st2, Ok tt) /\
    Retry.count_calls (Retry.events st2) = Retry.count_calls (Retry.events st) /\
    Retry.count_exceeded (Retry.events st2) =
      Retry.count_exceeded (Retry.events st).
Proof.
  intros (t & Ht & Hsleep).
  unfold Retry.attempt_failed, Retry.sleep. rewrite Ht, Hsleep.
  destruct (Retry.configured callback_on_attempt_failure) as [name|] eqn:Hcb.
  - match goal with |- context [Retry.call_method _ ?ev _ ?a ?s] =>
      destruct (call_method_returns ev name a s (or_introl Hcb))
        as (s' & v & ->) end.
    eexists. split; [reflexivity|]. simpl.
    rewrite !count_calls_app, !count_exceeded_app. simpl. lia.
  - eexists. split; [reflexivity|]. simpl.
    rewrite !count_calls_app, !count_exceeded_app. simpl. lia.
Qed.

Lemma exceeded_returns st :
  exists st',
    exceeded st = (st', Ok VNone) /\
    Retry.count_calls (Retry.events st') = Retry.count_calls (Retry.events st) /\
    Retry.count_exceeded (Retry.events st') =
      (Retry.count_exceeded (Retry.events st) +
       match Retry.configured callback_on_exceeded with Some _ => 1 | None => 0 end)%nat.
Proof.
  unfold Retry.exceeded.
  destruct (Retry.configured callback_on_exceeded) as [name|] eqn:Hcb.
  - match goal with |- context [Retry.call_method _ ?ev _ ?a ?s] =>
      destruct (call_method_returns ev name a s (or_intror Hcb))
        as (s' & v & ->) end.
    eexists. split; [reflexivity|]. simpl.
    rewrite !count_calls_app, !count_exceeded_app. simpl. lia.
  - eexists. split; [reflexivity|]. simpl.
    rewrite !count_calls_app, !count_exceeded_app. simpl. lia.
Qed.

(** From attempt counter [num_attempts] on, the operation is called once
    for every second value of the counter up to [num_retries]. *)
Lemma sleeps_from_here num_attempts :
  sleeps_from num_attempts -> sleeps_at num_attempts.
Proof.
  intros Hsl. pose proof (Hsl 0 ltac:(lia) ltac:(lia)) as H.
  now rewrite Z.mul_0_r, Z.add_0_r in H.
Qed.

Lemma sleeps_from_next num_attempts :
  num_attempts < num_retries -> sleeps_from num_attempts ->
  sleeps_from (num_attempts + 1 + 1).
Proof.
  intros Hlt Hsl k Hk Hmax.
  replace (num_attempts + 1 + 1 + 2 * k) with (num_attempts + 2 * (k + 1))
    by lia.
  apply Hsl; lia.
Qed.

Lemma wrapper_all_fail num_attempts args st :
  pos args = [] -> sleeps_from num_attempts ->
  exists st',
    wrapper num_attempts args st = (st', Ok VNone) /\
    Retry.count_calls (Retry.events st') =
      (Retry.count_calls (Retry.events st) +
       S (Z.to_nat ((num_retries - num_attempts + 1) / 2)))%nat /\
    Retry.count_exceeded (Retry.events st') =
      (Retry.count_exceeded (Retry.events st) +
       match Retry.configured callback_on_exceeded with Some _ => 1 | None => 0 end)%nat.
Proof.
  funelim (wrapper num_attempts args st); intros Hpos Hsl;
    pose proof (sleeps_from_here _ Hsl) as Hhere.
  - destruct (function_fails args (Retry.self_obj st)) as (? & ? & ?).
    congruence.
  - destruct (attempt_failed_returns e num_attempts
                (Retry.set_self s1 (Retry.emit (EvCall num_attempts) st)) Hhere)
      as (? & ? & _). congruence.
  - destruct (attempt_failed_returns e num_attempts
                (Retry.set_self s1 (Retry.emit (EvCall num_attempts) st)) Hhere)
      as (st2' & Hst2 & Hcalls & Hexc).
    rewrite Heq0 in Hst2. injection Hst2 as <-.
    destruct (H Hpos (sleeps_from_next _ l Hsl)) as (st' & Hrec & Hc & Hx).
    rewrite Hpos, Hrec. exists st'. split; [reflexivity|].
    rewrite Hc, Hx. simpl.
    rewrite !count_calls_app, !count_exceeded_app, Hcalls, Hexc. simpl.
    rewrite !count_calls_app, !count_exceeded_app. simpl.
    replace (num_retries - num_attempts + 1)
      with ((num_retries - (num_attempts + 1 + 1) + 1) + 1 * 2) by lia.
    rewrite Z.div_add by lia.
    rewrite Z2Nat.inj_add by (try apply Z.div_pos; lia).
    simpl. lia.
  - destruct (attempt_failed_returns e num_attempts
                (Retry.set_self s1 (Retry.emit (EvCall num_attempts) st)) Hhere)
      as (st2' & Hst2 & Hcalls & Hexc).
    rewrite Heq0 in Hst2. injection Hst2 as <-.
    destruct (exceeded_returns st2) as (st' & -> & Hc & Hx).
    exists st'. split; [reflexivity|].
    rewrite Hc, Hx, Hcalls, Hexc. simpl.
    rewrite !count_calls_app, !count_exceeded_app. simpl.
    assert ((num_retries - num_attempts + 1) / 2 <= 0) as Hle.
    { apply Z.lt_succ_r. apply Z.div_lt_upper_bound; lia. }
    rewrite Z2Nat.nonpos by exact Hle. lia.
Qed.

(** Every delay on the way, at the attempt counters 0, 2, 4, ..., is
    computed and taken by [time.sleep]. *)
Hypothesis delays_accepted : sleeps_from 0.

(** C1: when the operation fails on every attempt (and the configured
    callbacks return, [time.sleep] takes every delay on the way and the
    method takes no positional argument), a call of the wrapper returns
    after calling the operation [1 + (num_retries + 1) / 2] times, the
    quotient rounded down and taken as 0 when negative, and after calling the
    callback on exceeded once if one is configured.  The attempt counter
    goes up by two for each retry, so the number of calls is not
    [num_retries + 1]. *)
Theorem wrapper_calls_when_all_fail kwargs st :
  exists st',
    wrapper 0 (CallArgs [] kwargs) st = (st', Ok VNone) /\
    Retry.count_calls (Retry.events st') =
      (Retry.count_calls (Retry.events st) +
       S (Z.to_nat ((num_retries + 1) / 2)))%nat /\
    Retry.count_exceeded (Retry.events st') =
      (Retry.count_exceeded (Retry.events st) +
       match Retry.configured callback_on_exceeded with Some _ => 1 | None => 0 end)%nat.
Proof.
  destruct (wrapper_all_fail 0 (CallArgs [] kwargs) st eq_refl delays_accepted)
    as (st' & Hw & Hc & Hx).
  exists st'. rewrite Z.sub_0_r in Hc. auto.
Qed.
End Facts.

(** The default of three retries: the operation is called three times, with
    attempt counters 0, 2 and 4, and then the callback on exceeded. *)
Example retry_default_trace :
  Retry.events (fst (Examples.retry_default Examples.always_fails 0
                       Examples.no_args Examples.start)) =
  [EvCall 0; EvLogFailed Examples.unreachable (PyFloat Examples.f_2_5);
   EvSleep (PyFloat Examples.f_2_5);
   EvLogRetry 1;
   EvCall 2; EvLogFailed Examples.unreachable (PyInt 10); EvSleep (PyInt 10);
   EvLogRetry 3;
   EvCall 4; EvLogFailed Examples.unreachable (PyInt 40); EvSleep (PyInt 40);
   EvLogExceeded 3; EvExceeded "on_exceeded" []].
Proof. vm_compute. reflexivity. Qed.

(** With a positional argument the first retry is refused: one call, no
    callback on exceeded. *)
Example retry_positional_argument :
  Examples.retry_default Examples.always_fails 0 (CallArgs [VInt 1] [])
    Examples.start =
  (Retry.RState 1%nat []
     [EvCall 0; EvLogFailed Examples.unreachable (PyFloat Examples.f_2_5);
      EvSleep (PyFloat Examples.f_2_5); EvLogRetry 1],
   Raise (Exc TypeError
            (VStr "got multiple values for argument 'num_attempts'"))).
Proof. vm_compute. reflexivity. Qed.

Lemma wrapper_calls_when_all_fail_witness :
  exists st',
    Examples.retry_default Examples.always_fails 0 (CallArgs [] []) Examples.start
      = (st', Ok VNone) /\
    Retry.count_calls (Retry.events st') = 3%nat /\
    Retry.count_exceeded (Retry.events st') = 1%nat.
Proof.
  apply (wrapper_calls_when_all_fail Examples.always_fails Examples.any_method
           Examples.time_sleep (Some "on_exceeded") None 3 (PyInt 5) []).
  - intros a s. eexists _, _. reflexivity.
  - intros name s _. eexists. split; [reflexivity|].
    intros a s0. eexists _, _. reflexivity.
  - intros k H0 H4.
    assert (Hk : k = 0 \/ k = 1 \/ k = 2) by lia.
    destruct Hk as [-> | [-> | ->]];
      eexists; (split; [reflexivity | vm_compute; reflexivity]).
Defined.

Lemma wrapper_discards_result_witness :
  snd (Examples.retry_default Examples.succeeds 0 Examples.no_args
         Examples.start) = Ok VNone.
Proof.
  apply (proj2 (wrapper_discards_result Examples.succeeds Examples.any_method
                  Examples.time_sleep (Some "on_exceeded") None 3 (PyInt 5) []
                  0 Examples.no_args Examples.start) 1%nat (VInt 42)).
  reflexivity.
Defined.

End RetryFacts.

(** ** Consumer threads *)

Module ConsumerFacts.
Section Facts.
Variable env : Env.

Abbreviation run := (Connector.run env).
Abbreviation join := (Connector.join env).

Lemma error_func_calls_app tr1 tr2 :
  Connector.error_func_calls (tr1 ++ tr2) =
  Connector.error_func_calls tr1 ++ Connector.error_func_calls tr2.
Proof.
  induction tr1 as [|c tr1 IH]; [reflexivity|].
  destruct c; simpl; rewrite IH; reflexivity.
Qed.

(** [run] when the receive loop raises something that is no channel
    closure: the exception is logged and handed to the handler. *)
Lemma run_unfold_error (self : ConsumerThread) (w : world) (e : exn) :
  env_unit env (trace w) (StartConsuming (channel self)) = Some e ->
  class_of e <> ChannelClosed ->
  run self w =
    (let* _ := Connector.call_error_func env (error_func self) self e in
     ret VNone)
      (World (heap w)
         (trace w ++ [StartConsuming (channel self); Log ERROR (MsgException e)])
         (threads w)).
Proof.
  intros Hraise Hclass.
  unfold Connector.run, try_except, bind at 1, Connector.ext_unit.
  rewrite Hraise.
  assert (Hlog : forall k : M value,
    (let* _ := Connector.log ERROR (MsgException e) in k)
      (record (StartConsuming (channel self)) w) =
    k (World (heap w)
         (trace w ++ [StartConsuming (channel self); Log ERROR (MsgException e)])
         (threads w))).
  { intros k. unfold bind, Connector.log, record. simpl.
    now rewrite <- app_assoc. }
  destruct (class_of e); try congruence; apply Hlog.
Qed.

(** C5: when the receive loop of a worker raises [e] and [e] is not a
    channel closure, the error handler of the worker is called exactly once
    more, with the worker and [e], and [run] returns normally provided the
    handler does.  When [e] is a channel closure, [run] returns normally
    and no handler is called. *)
Theorem run_forwards_exception (self : ConsumerThread) (w : world) (e : exn) :
  env_unit env (trace w) (StartConsuming (channel self)) = Some e ->
  (class_of e <> ChannelClosed ->
   Connector.error_func_calls (trace (fst (run self w))) =
     Connector.error_func_calls (trace w) ++ [(error_func self, self, e)] /\
   (Connector.handler_returns env (error_func self) self e
      (trace w ++ [StartConsuming (channel self); Log ERROR (MsgException e)]) ->
    snd (run self w) = Ok VNone)) /\
  (class_of e = ChannelClosed ->
   snd (run self w) = Ok VNone /\
   Connector.error_func_calls (trace (fst (run self w))) =
     Connector.error_func_calls (trace w)).
Proof.
  intros Hraise. split.
  - intros Hclass. rewrite (run_unfold_error self w e Hraise Hclass).
    unfold Connector.handler_returns, Connector.call_error_func.
    destruct (error_func self) as [|name].
    + unfold bind, Connector.default_error_handler, bind, Connector.log, ret,
        record. simpl.
      rewrite <- !app_assoc, !error_func_calls_app. simpl. auto.
    + unfold bind, Connector.ext_unit, ret, record. simpl.
      destruct (env_unit env _ (CallErrorFunc _ _ _)) as [e'|]; simpl;
        rewrite <- !app_assoc, !error_func_calls_app; simpl;
        (split; [reflexivity|]); [discriminate|reflexivity].
  - intros Hclass.
    unfold Connector.run, try_except, bind, Connector.ext_unit.
    rewrite Hraise, Hclass. unfold Connector.log, ret, record. simpl.
    rewrite <- !app_assoc, !error_func_calls_app. simpl.
    now rewrite app_nil_r.
Qed.

(** C6: [join] asks the broker to stop delivery, then closes the channel if
    it is open, then closes the connection if it is open, all in one
    guarded block: the first of these steps that raises is logged and ends
    the block, so the steps after it are not taken.  The thread is joined
    after the block in every case, and [join] returns or raises as that
    does. *)
Theorem join_guarded_block (self : ConsumerThread) (w : world) :
  let calls :=
    Connector.guarded_calls env (trace w) (Connector.shutdown_steps self) in
  join self w =
    (World (heap w) (trace w ++ calls ++ [ThreadJoin (ident self)]) (threads w),
     match env_unit env (trace w ++ calls) (ThreadJoin (ident self)) with
     | None => Ok VNone
     | Some e => Raise e
     end).
Proof.
  destruct w as [h tr n]. simpl.
  unfold Connector.join, try_finally, try_except, bind, ret,
    Connector.ext_unit, Connector.ext_bool, Connector.log, record. simpl.
  destruct (env_unit env tr (StopConsuming (channel self))) as [x|]; simpl.
  { rewrite <- !app_assoc. simpl.
    destruct (env_unit env _ (ThreadJoin _)); reflexivity. }
  destruct (env_bool env (tr ++ [StopConsuming (channel self)])
              (ChannelIsOpen (channel self))); simpl;
    rewrite <- ?app_assoc; simpl.
  - destruct (env_unit env _ (ChannelClose _)) as [x|]; simpl;
      rewrite <- ?app_assoc; simpl.
    { destruct (env_unit env _ (ThreadJoin _)); reflexivity. }
    destruct (env_bool env _ (ConnIsOpen _)); simpl;
      rewrite <- ?app_assoc; simpl.
    + destruct (env_unit env _ (ConnClose _)) as [x|]; simpl;
        rewrite <- ?app_assoc; simpl;
        destruct (env_unit env _ (ThreadJoin _)); reflexivity.
    + destruct (env_unit env _ (ThreadJoin _)); reflexivity.
  - destruct (env_bool env _ (ConnIsOpen _)); simpl;
      rewrite <- ?app_assoc; simpl.
    + destruct (env_unit env _ (ConnClose _)) as [x|]; simpl;
        rewrite <- ?app_assoc; simpl;
        destruct (env_unit env _ (ThreadJoin _)); reflexivity.
    + destruct (env_unit env _ (ThreadJoin _)); reflexivity.
Qed.

Abbreviation stop_each := (Connector.stop_each env).
Abbreviation stop_consumers := (Connector.stop_consumers env).

(** One round of the loop of [stop_consumers] on a registered name. *)
Lemma stop_each_cons self name names thread w :
  PyDict.get name (consumers self) = Some thread ->
  stop_each self (name :: names) w =
    match join thread w with
    | (w', Ok _) => stop_each self names w'
    | (w', Raise e) => (w', Raise (ExcFrom ChildProcessError e))
    end.
Proof.
  intros Hget. simpl. unfold bind, try_except, raise.
  rewrite (PyDictFacts.get_mem _ _ _ Hget), Hget.
  destruct (join thread w) as [w' [v|e]]; reflexivity.
Qed.

Lemma stop_each_app self pre post w w1 v :
  stop_each self pre w = (w1, Ok v) ->
  stop_each self (pre ++ post) w = stop_each self post w1.
Proof.
  revert w. induction pre as [|name pre IH]; intros w Hpre.
  - simpl in Hpre. unfold ret in Hpre. now injection Hpre as <- _.
  - simpl in *. unfold bind in *.
    destruct (try_except _ _ w) as [w' [u|e]]; [|discriminate].
    now apply IH.
Qed.

(** C2: when stopping a worker raises [e], [stop_consumers] raises at once
    a single [ChildProcessError] that wraps [e]: the workers before it in
    the order have been stopped, and the world is left as that worker's
    [join] left it, so nothing is asked of the workers after it. *)
Theorem stop_consumers_raises_at_first_failure
    (self : MQConnector) (names pre post : list string) (name : string)
    (thread : ConsumerThread) (w w1 w2 : world) (e : exn) :
  Connector.names_to_stop self names = pre ++ name :: post ->
  stop_each self pre w = (w1, Ok VNone) ->
  PyDict.get name (consumers self) = Some thread ->
  join thread w1 = (w2, Raise e) ->
  stop_consumers self names w = (w2, Raise (ExcFrom ChildProcessError e)).
Proof.
  intros Hnames Hpre Hget Hjoin.
  unfold Connector.stop_consumers. rewrite Hnames.
  rewrite (stop_each_app _ _ _ _ _ _ Hpre).
  rewrite (stop_each_cons _ _ _ _ _ Hget), Hjoin. reflexivity.
Qed.
End Facts.

(** The test suite's consumer whose callback raises: its handler gets the
    exception, once. *)
Lemma run_forwards_exception_witness :
  Connector.error_func_calls
    (trace (fst (Connector.run Examples.env_callback_raises
                   (Examples.thread 2 (UserErrorHandler "handle_error"))
                   Examples.idle))) =
    Connector.error_func_calls (trace Examples.idle) ++
    [(UserErrorHandler "handle_error",
      Examples.thread 2 (UserErrorHandler "handle_error"),
      Exc (OtherError "Exception") (VStr "Exception to Handle"))] /\
  snd (Connector.run Examples.env_callback_raises
         (Examples.thread 2 (UserErrorHandler "handle_error"))
         Examples.idle) = Ok VNone.
Proof.
  destruct (proj1 (run_forwards_exception Examples.env_callback_raises
                     (Examples.thread 2 (UserErrorHandler "handle_error"))
                     Examples.idle _ eq_refl)) as [Hcalls Hret].
  - discriminate.
  - split; [exact Hcalls|]. apply Hret. reflexivity.
Defined.

(** Asking the broker to stop delivery fails while channel and connection
    are open: neither is closed, the thread is joined. *)
Lemma join_skips_close_counterexample :
  (forall tr c, env_bool Examples.env_stop_fails tr c = true) /\
  Connector.join Examples.env_stop_fails
    (Examples.thread 0 DefaultErrorHandler) Examples.idle =
    (World ∅ [StopConsuming 0%nat; Log ERROR (MsgException Examples.boom);
              ThreadJoin 0] 0,
     Ok VNone).
Proof. split; reflexivity. Qed.

(** Two workers, the first was never started: its [join] raises, and the
    second is not asked to stop. *)
Lemma stop_consumers_stops_early_counterexample :
  PyDict.keys (consumers Examples.two_consumers) = ["test1"; "test2"] /\
  Connector.stop_consumers Examples.env_join_fails Examples.two_consumers []
    Examples.idle =
    (World ∅ [StopConsuming 0%nat; ChannelIsOpen 0%nat; ChannelClose 0%nat;
              ConnIsOpen 0%nat; ConnClose 0%nat; ThreadJoin 0] 0,
     Raise (ExcFrom ChildProcessError Examples.not_started)).
Proof. split; reflexivity. Qed.

Lemma stop_consumers_raises_at_first_failure_witness :
  Connector.stop_consumers Examples.env_join_fails Examples.two_consumers []
    Examples.idle =
    (fst (Connector.join Examples.env_join_fails
            (Examples.thread 0 DefaultErrorHandler) Examples.idle),
     Raise (ExcFrom ChildProcessError Examples.not_started)).
Proof.
  apply (stop_consumers_raises_at_first_failure Examples.env_join_fails
           Examples.two_consumers [] [] ["test2"] "test1"
           (Examples.thread 0 DefaultErrorHandler)
           Examples.idle Examples.idle); reflexivity.
Defined.
End ConsumerFacts.

(** ** Publishing *)

Module PublishFacts.
Section Facts.
Variable env : Env.

Abbreviation emit_mq_message := (Connector.emit_mq_message env).

(** The check at the head of [emit_mq_message] passes on a non-empty dict. *)
Lemma valid_payload (d : list (string * value)) :
  d <> [] ->
  truthy (VDict d) = true /\ exists n, py_len (VDict d) = Ok n /\ (0 <? n)%Z = true.
Proof.
  intros Hd. destruct d as [|kv d]; [congruence|].
  split; [reflexivity|]. eexists. split; [reflexivity|].
  apply Z.ltb_lt. simpl List.length. lia.
Qed.

(** What [emit_mq_message] does to a valid payload up to the first call to
    the broker. *)
Lemma emit_valid_unfold connection queue request_data exchange w d :
  heap w !! request_data = Some (VDict d) -> d <> [] ->
  let message_id := env_uuid env (trace w) in
  let d' := PyDict.set "message_id" (VStr message_id) d in
  let w1 := World (<[request_data := VDict d']> (heap w))
                  (trace w ++ [Uuid4]) (threads w) in
  emit_mq_message connection queue request_data exchange w =
    (let* channel := Connector.ext_handle env (ConnChannel connection) in
     let* body := lift (dict_to_b64 env (VDict d')) in
     let* _ := Connector.ext_unit env
                 (BasicPublish channel (Connector.or_empty exchange) queue
                    body "1000") in
     let* _ := Connector.ext_unit env (ChannelClose channel) in
     ret (VStr message_id)) w1.
Proof.
  intros Hload Hd. simpl.
  destruct (valid_payload d Hd) as (Htruthy & n & Hlen & Hn).
  unfold Connector.emit_mq_message.
  unfold bind at 1. unfold Connector.load at 1. rewrite Hload. simpl default.
  unfold bind at 1. rewrite Htruthy.
  unfold bind at 1. unfold lift at 1. rewrite Hlen, Hn. unfold ret at 1.
  simpl isinstance_dict. cbv iota.
  unfold bind at 1. unfold Connector.create_unique_id at 1.
  unfold bind at 1. unfold Connector.setitem, bind, Connector.load, record.
  simpl. rewrite Hload. simpl.
  unfold Connector.store, Connector.ext_handle, record. simpl.
  destruct (env_handle env _ _) as [ch|e]; [|reflexivity].
  rewrite lookup_insert_eq. simpl. reflexivity.
Qed.

(** The calls to the broker after the payload was updated leave the shared
    objects alone. *)
Lemma emit_tail_heap connection queue exchange body_of message_id w1 :
  heap (fst ((let* channel := Connector.ext_handle env (ConnChannel connection) in
              let* body := lift (body_of : result string) in
              let* _ := Connector.ext_unit env
                          (BasicPublish channel (Connector.or_empty exchange)
                             queue body "1000") in
              let* _ := Connector.ext_unit env (ChannelClose channel) in
              ret (VStr message_id)) w1)) = heap w1.
Proof.
  unfold bind, lift, ret, Connector.ext_handle, Connector.ext_unit, record.
  simpl.
  destruct (env_handle env _ _) as [ch|e]; [|reflexivity].
  destruct body_of as [body|e]; [|reflexivity].
  destruct (env_unit env _ (BasicPublish _ _ _ _ _)); [reflexivity|]. simpl.
  destruct (env_unit env _ (ChannelClose _)); reflexivity.
Qed.

(** C9: on a payload that is a non-empty dict, [emit_mq_message] updates
    the caller's own object: afterwards the caller's reference holds the
    same dict with [message_id] set to the new identifier, every other key
    of it has the value it had, and no other object has changed.  This
    holds whether or not the broker accepts the message. *)
Theorem emit_mq_message_mutates_payload
    (connection : conn_id) (queue : string) (request_data : loc)
    (exchange : option string) (w : world) (d : list (string * value)) :
  heap w !! request_data = Some (VDict d) -> d <> [] ->
  let message_id := VStr (env_uuid env (trace w)) in
  let d' := PyDict.set "message_id" message_id d in
  let w' := fst (emit_mq_message connection queue request_data exchange w) in
  heap w' = <[request_data := VDict d']> (heap w) /\
  PyDict.get "message_id" d' = Some message_id /\
  (forall k, k <> "message_id" -> PyDict.get k d' = PyDict.get k d) /\
  (forall l, l <> request_data -> heap w' !! l = heap w !! l).
Proof.
  intros Hload Hd. simpl.
  rewrite (emit_valid_unfold _ _ _ _ _ _ Hload Hd). simpl.
  rewrite emit_tail_heap. simpl.
  split; [reflexivity|]. split; [apply PyDictFacts.get_set_eq|].
  split; [intros k Hk; now apply PyDictFacts.get_set_ne|].
  intros l Hl. now rewrite lookup_insert_ne.
Qed.

(** C7: on a payload that is a non-empty dict, and with a broker that
    opens the channel, takes the message and closes the channel,
    [emit_mq_message] draws a new identifier, stores it in the payload
    under [message_id], opens a channel, publishes the encoded payload on
    it with expiration 1000 (milliseconds), closes that channel, and
    returns the identifier, which is the [message_id] of the payload that
    was encoded and published. *)
Theorem emit_mq_message_publishes
    (connection : conn_id) (queue : string) (request_data : loc)
    (exchange : option string) (w : world) (d : list (string * value))
    (channel : chan_id) (body : string) :
  heap w !! request_data = Some (VDict d) -> d <> [] ->
  let message_id := env_uuid env (trace w) in
  let d' := PyDict.set "message_id" (VStr message_id) d in
  let publish :=
    BasicPublish channel (Connector.or_empty exchange) queue body "1000" in
  env_handle env (trace w ++ [Uuid4]) (ConnChannel connection) = Ok channel ->
  dict_to_b64 env (VDict d') = Ok body ->
  env_unit env (trace w ++ [Uuid4; ConnChannel connection]) publish = None ->
  env_unit env (trace w ++ [Uuid4; ConnChannel connection; publish])
    (ChannelClose channel) = None ->
  emit_mq_message connection queue request_data exchange w =
    (World (<[request_data := VDict d']> (heap w))
           (trace w ++ [Uuid4; ConnChannel connection; publish;
                        ChannelClose channel])
           (threads w),
     Ok (VStr message_id)) /\
  PyDict.get "message_id" d' = Some (VStr message_id).
Proof.
  intros Hload Hd. simpl. intros Hch Hbody Hpub Hclose.
  split; [|apply PyDictFacts.get_set_eq].
  rewrite (emit_valid_unfold _ _ _ _ _ _ Hload Hd). simpl.
  unfold bind, lift, ret, Connector.ext_handle, Connector.ext_unit, record.
  simpl. rewrite Hch, Hbody. simpl.
  rewrite <- ?app_assoc. simpl. rewrite Hpub. simpl.
  rewrite <- ?app_assoc. simpl. rewrite Hclose. simpl.
  rewrite <- ?app_assoc. reflexivity.
Qed.

(** C4: on a payload that is an empty dict or no dict, [emit_mq_message]
    raises and leaves the world as it was: no call to the broker, the
    payload unchanged.  The exception is a [ValueError] that carries the
    payload when the payload is false or has a length; for a true payload
    without a length, such as the number 5, it is the [TypeError] of [len],
    not a [ValueError]. *)
Theorem emit_mq_message_invalid
    (connection : conn_id) (queue : string) (request_data : loc)
    (exchange : option string) (w : world) (data : value) :
  heap w !! request_data = Some data ->
  data = VDict [] \/ isinstance_dict data = false ->
  emit_mq_message connection queue request_data exchange w =
    (w, match py_len data with
        | Raise e => if truthy data then Raise e else Raise (Exc ValueError data)
        | Ok _ => Raise (Exc ValueError data)
        end).
Proof.
  intros Hload Hdata.
  unfold Connector.emit_mq_message, bind, Connector.load, lift, ret, raise.
  rewrite Hload. simpl.
  destruct Hdata as [->|Hnd]; [reflexivity|].
  destruct data as [| b | z | s0 | l | d0 | o]; simpl in *; try discriminate;
    try reflexivity.
  - now destruct b.
  - now destruct (z =? 0)%Z.
  - destruct (String.eqb s0 ""); simpl; [reflexivity|].
    now destruct (0 <? Z.of_nat (String.length s0))%Z.
  - destruct l; simpl; [reflexivity|].
    now destruct (0 <? Z.of_nat (S (List.length l)))%Z.
Qed.
End Facts.

(** Publishing the number 5: [len] refuses it before [isinstance] is
    asked. *)
Lemma emit_mq_message_invalid_witness :
  Connector.emit_mq_message Examples.env_ok 7%nat "test" 0%nat (Some "")
    (Examples.world_with (VInt 5)) =
    (Examples.world_with (VInt 5),
     Raise (Exc TypeError (VStr "object has no len()"))).
Proof.
  apply (emit_mq_message_invalid Examples.env_ok 7%nat "test" 0%nat (Some "")
           (Examples.world_with (VInt 5)) (VInt 5)).
  - reflexivity.
  - right. reflexivity.
Defined.

(** Publishing the empty dict: the [ValueError], and nothing has happened. *)
Example emit_mq_message_empty_dict :
  Connector.emit_mq_message Examples.env_ok 7%nat "test" 0%nat (Some "")
    (Examples.world_with (VDict [])) =
    (Examples.world_with (VDict []), Raise (Exc ValueError (VDict []))).
Proof. reflexivity. Qed.

(** The payload of the test suite. *)
Lemma emit_mq_message_publishes_witness :
  Connector.emit_mq_message Examples.env_ok 7%nat "test" 0%nat (Some "")
    (Examples.world_with Examples.hello) =
    (World (<[0%nat := VDict [("data", VStr "Hello!");
                              ("message_id",
                               VStr "0f8fad5bd9cb469fa16570867728950e")]]>
              (heap (Examples.world_with Examples.hello)))
           [Uuid4; ConnChannel 7%nat;
            BasicPublish 1%nat "" "test" "eyJkYXRhIjogIkhlbGxvISJ9" "1000";
            ChannelClose 1%nat]
           0,
     Ok (VStr "0f8fad5bd9cb469fa16570867728950e")) /\
  PyDict.get "message_id"
    [("data", VStr "Hello!");
     ("message_id", VStr "0f8fad5bd9cb469fa16570867728950e")] =
    Some (VStr "0f8fad5bd9cb469fa16570867728950e").
Proof.
  apply (emit_mq_message_publishes Examples.env_ok 7%nat "test" 0%nat (Some "")
           (Examples.world_with Examples.hello)
           [("data", VStr "Hello!")] 1%nat "eyJkYXRhIjogIkhlbGxvISJ9");
    first [reflexivity | discriminate].
Defined.

Lemma emit_mq_message_mutates_payload_witness :
  heap (fst (Connector.emit_mq_message Examples.env_ok 7%nat "test" 0%nat
               (Some "") (Examples.world_with Examples.hello))) =
    <[0%nat := VDict [("data", VStr "Hello!");
                      ("message_id", VStr "0f8fad5bd9cb469fa16570867728950e")]]>
      (heap (Examples.world_with Examples.hello)).
Proof.
  apply (emit_mq_message_mutates_payload Examples.env_ok 7%nat "test" 0%nat
           (Some "") (Examples.world_with Examples.hello)
           [("data", VStr "Hello!")]);
    first [reflexivity | discriminate].
Defined.
End PublishFacts.

(** ** The registry of consumers *)

Module RegistryFacts.
Section Facts.
Variable env : Env.

Abbreviation register_consumer := (Connector.register_consumer env).
Abbreviation register_all := (Connector.register_all env).

(** A registration that returns has put the new worker under its name. *)
Lemma register_consumer_Ok self name vhost queue callback on_error auto_ack
    w w' self' :
  register_consumer self name vhost queue callback on_error auto_ack w
    = (w', Ok self') ->
  exists thread, consumers self' = PyDict.set name thread (consumers self).
Proof.
  unfold Connector.register_consumer, bind, ret.
  destruct (Connector.get_connection_params _ _ _ _ _) as [w1 [params|e]];
    [|discriminate].
  destruct (Connector.ConsumerThread_init _ _ _ _ _ _ _) as [w2 [thread|e]];
    [|discriminate].
  intros [= <- <-]. now exists thread.
Qed.

(** Whether a registration returns does not depend on the registry: when
    the connection parameters can be built and the worker can be set up,
    the worker is stored under the name, taken or not. *)
Lemma register_consumer_succeeds self name vhost queue callback on_error
    auto_ack w w' params thread :
  Connector.get_connection_params env self vhost [] w = (w, Ok params) ->
  Connector.ConsumerThread_init env params queue callback
    (Connector.or_default_error_handler on_error) auto_ack w = (w', Ok thread) ->
  register_consumer self name vhost queue callback on_error auto_ack w =
    (w', Ok {| config := config self; service_id := service_id self;
               service_name := service_name self;
               consumers := PyDict.set name thread (consumers self) |}).
Proof.
  intros Hparams Hinit.
  unfold Connector.register_consumer, bind, ret.
  now rewrite Hparams, Hinit.
Qed.

Lemma register_all_keys regs : forall self w w' self',
  register_all self regs w = (w', Ok self') ->
  List.NoDup (PyDict.keys (consumers self)) ->
  List.NoDup (PyDict.keys (consumers self')) /\
  forall n, In n (PyDict.keys (consumers self')) <->
            In n (PyDict.keys (consumers self)) \/
            In n (map Connector.reg_name regs).
Proof.
  induction regs as [|r regs IH]; intros self w w' self' Hall Hnd.
  - simpl in Hall. unfold ret in Hall. injection Hall as <- <-.
    split; [exact Hnd|]. simpl. tauto.
  - simpl in Hall. unfold bind in Hall.
    destruct (register_consumer self _ _ _ _ _ _ w) as [w1 [self1|e]] eqn:Hreg;
      [|discriminate].
    destruct (register_consumer_Ok _ _ _ _ _ _ _ _ _ _ Hreg) as [thread Hcs].
    destruct (IH self1 w1 w' self' Hall) as [Hnd' Hin].
    { rewrite Hcs. now apply PyDictFacts.keys_set_NoDup. }
    split; [exact Hnd'|].
    intros n. rewrite Hin, Hcs, PyDictFacts.keys_set_in. simpl. intuition.
Qed.

(** C8: [register_consumer] stores the new worker under the given name
    whether or not the name is taken: a taken name raises no error, its
    worker is replaced and the names of the registry stay as they were,
    and the workers under other names are kept.  So after any sequence of
    registrations on a new connector the registry has every name at most
    once, and its names are the names registered. *)
Theorem register_consumer_replaces :
  (forall self name vhost queue callback on_error auto_ack w w' params thread,
     Connector.get_connection_params env self vhost [] w = (w, Ok params) ->
     Connector.ConsumerThread_init env params queue callback
       (Connector.or_default_error_handler on_error) auto_ack w
       = (w', Ok thread) ->
     exists self',
       register_consumer self name vhost queue callback on_error auto_ack w
         = (w', Ok self') /\
       PyDict.get name (consumers self') = Some thread /\
       (forall n, n <> name ->
          PyDict.get n (consumers self') = PyDict.get n (consumers self)) /\
       (PyDict.mem name (consumers self) = true ->
          PyDict.keys (consumers self') = PyDict.keys (consumers self))) /\
  (forall self regs w w' self',
     consumers self = [] ->
     register_all self regs w = (w', Ok self') ->
     List.NoDup (PyDict.keys (consumers self')) /\
     forall n, In n (PyDict.keys (consumers self')) <->
               In n (map Connector.reg_name regs)).
Proof.
  split.
  - intros self name vhost queue callback on_error auto_ack w w' params thread
      Hparams Hinit.
    eexists. split;
      [exact (register_consumer_succeeds self name _ _ _ _ _ _ _ _ _ Hparams Hinit)|].
    simpl. split; [apply PyDictFacts.get_set_eq|].
    split; [intros n Hn; now apply PyDictFacts.get_set_ne|].
    apply PyDictFacts.keys_set_mem.
  - intros self regs w w' self' Hempty Hall.
    destruct (register_all_keys regs self w w' self' Hall) as [Hnd Hin].
    { rewrite Hempty. constructor. }
    split; [exact Hnd|].
    intros n. rewrite Hin, Hempty. simpl. tauto.
Qed.
End Facts.

(** The consumers of the test suite, with the first name registered again:
    two names, the first with the last worker. *)
Lemma register_consumer_replaces_witness :
  exists w' self',
    Connector.register_all Examples.env_ok (Examples.connector [])
      [Examples.reg "test1" "test"; Examples.reg "test2" "test1";
       Examples.reg "test1" "test3"] Examples.idle = (w', Ok self') /\
    PyDict.keys (consumers self') = ["test1"; "test2"] /\
    List.NoDup (PyDict.keys (consumers self')) /\
    forall n, In n (PyDict.keys (consumers self')) <->
              In n ["test1"; "test2"; "test1"].
Proof.
  eexists _, _. split; [reflexivity|]. split; [reflexivity|].
  eapply (proj2 (register_consumer_replaces Examples.env_ok)
           (Examples.connector [])
           [Examples.reg "test1" "test"; Examples.reg "test2" "test1";
            Examples.reg "test1" "test3"] Examples.idle);
    reflexivity.
Defined.
End RegistryFacts.

(** ** More on the retry wrapper *)

(** Multiplying by [1.0] changes nothing. *)
Lemma SFmul_one (f : spec_float) :
  valid_binary prec emax f = true ->
  SFmul prec emax f (S754_finite false two_52 (1 - 1 - 52)) = f.
Proof.
  intros Hv.
  destruct f as [s|s| |s mx ex];
    try (simpl; rewrite ?xorb_false_r; reflexivity).
  simpl in Hv.
  destruct (FloatFacts.SFmul_pow2 s mx ex 0 Hv) as [_ Hmul]; [lia|].
  change (1 - 1 - 52)%Z with (0 - 52)%Z. rewrite Hmul.
  unfold bounded in Hv. apply andb_true_iff in Hv. destruct Hv as [Hcan Hex].
  unfold canonical_mantissa in Hcan. apply Z.eqb_eq in Hcan.
  rewrite Z.add_0_r, Hcan, Hex.
  replace (ex + 0 - ex)%Z with 0%Z by lia.
  rewrite Z.pow_0_r, Z.mul_1_r. reflexivity.
Qed.

(** X1: [get_timeout] at attempt 1 is the back-off factor, int or float; with
    an int factor each further attempt doubles the delay, an int; with a
    float factor [get_timeout] raises [OverflowError] from attempt 1025 on,
    where [2 ** 1024] and more is to be converted to float. *)
Theorem get_timeout_doubles :
  (forall b : number, is_number b -> get_timeout b 1 = Ok b) /\
  (forall b n : Z, (1 <= n)%Z ->
     exists t : Z,
       get_timeout (PyInt b) n = Ok (PyInt t) /\
       get_timeout (PyInt b) (n + 1) = Ok (PyInt (2 * t))) /\
  (forall (f : spec_float) (n : Z), (1025 <= n)%Z ->
     get_timeout (PyFloat f) n =
       Raise (Exc OverflowError (VStr "int too large to convert to float"))).
Proof.
  split; [|split].
  - intros [z|f] Hv.
    + rewrite get_timeout_int by lia. do 2 f_equal.
      change (2 ^ (1 - 1))%Z with 1%Z. lia.
    + rewrite get_timeout_float by lia.
      change (1 <=? 1024)%Z with true. cbv iota.
      now rewrite SFmul_one.
  - intros b n Hn. exists (b * 2 ^ (n - 1))%Z.
    rewrite !get_timeout_int by lia. split; [reflexivity|].
    do 2 f_equal. replace (n + 1 - 1)%Z with (Z.succ (n - 1)) by lia.
    rewrite Z.pow_succ_r by lia. ring.
  - intros f n Hn. rewrite get_timeout_float by lia.
    destruct (n <=? 1024)%Z eqn:Hle; [lia|reflexivity].
Qed.

Module RetryMore.
Section Facts.
Context {Self : Type}.
Variable function : call_args -> Self -> Self * result value.
Variable getattr : Self -> string -> option (@Retry.method Self).
Variable time_sleep : number -> option exn.
Variable callback_on_exceeded : option string.
Variable callback_on_attempt_failure : option string.
Variable num_retries : Z.
Variable backoff_factor : number.
Variable callback_on_exceeded_args : list cbarg.

Abbreviation wrapper :=
  (Retry.wrapper function getattr time_sleep callback_on_exceeded
     callback_on_attempt_failure num_retries backoff_factor
     callback_on_exceeded_args).
Abbreviation attempt_failed :=
  (Retry.attempt_failed getattr time_sleep callback_on_attempt_failure
     backoff_factor).
Abbreviation exceeded :=
  (Retry.exceeded getattr callback_on_exceeded num_retries
     callback_on_exceeded_args).

(** The body of the wrapper, one level of the recursion. *)
Lemma wrapper_unfold num_attempts args st :
  wrapper num_attempts args st =
    match function args (Retry.self_obj st) with
    | (s1, Ok _) =>
        (Retry.set_self s1 (Retry.emit (EvCall num_attempts) st), Ok VNone)
    | (s1, Raise e) =>
        match attempt_failed e num_attempts
                (Retry.set_self s1 (Retry.emit (EvCall num_attempts) st)) with
        | (st2, Raise e') => (st2, Raise e')
        | (st2, Ok _) =>
            if Z_lt_dec num_attempts num_retries then
              match pos args with
              | [] =>
                  match wrapper (num_attempts + 1 + 1) args
                          (Retry.emit (EvLogRetry (num_attempts + 1)) st2) with
                  | (st4, Ok _) => (st4, Ok VNone)
                  | (st4, Raise e') => (st4, Raise e')
                  end
              | _ :: _ =>
                  (Retry.emit (EvLogRetry (num_attempts + 1)) st2,
                   Raise (Exc TypeError
                      (VStr "got multiple values for argument 'num_attempts'")))
              end
            else exceeded st2
        end
    end.
Proof.
  funelim (wrapper num_attempts args st).
  - now rewrite Heq.
  - now rewrite Heq0, Heq.
  - rewrite Heq1, Heq0, Heq. reflexivity.
  - rewrite Heq1, Heq0, Heq. reflexivity.
Qed.

(** What a failed attempt leaves behind, whatever its callback and the
    sleep do: no call of the operation, no call of the callback on
    exceeded, and the arguments of the callback with the exception filled
    in. *)
Lemma attempt_failed_frame e num_attempts st :
  let st2 := fst (attempt_failed e num_attempts st) in
  Retry.count_calls (Retry.events st2) = Retry.count_calls (Retry.events st) /\
  Retry.count_exceeded (Retry.events st2) =
    Retry.count_exceeded (Retry.events st) /\
  Retry.attempt_failure_args st2 =
    map (Retry.substitute e) (Retry.attempt_failure_args st).
Proof.
  unfold Retry.attempt_failed, Retry.sleep, Retry.call_method. simpl.
  destruct (Retry.configured callback_on_attempt_failure) as [name|].
  - simpl. destruct (getattr (Retry.self_obj st) name) as [m|]; simpl.
    + destruct (m _ _) as [s [v|e']]; simpl.
      * destruct (get_timeout backoff_factor num_attempts) as [t|e']; simpl.
        -- destruct (time_sleep t); simpl;
             rewrite ?RetryFacts.count_calls_app,
               ?RetryFacts.count_exceeded_app;
             simpl; repeat split; lia.
        -- rewrite ?RetryFacts.count_calls_app, ?RetryFacts.count_exceeded_app.
           simpl. repeat split; lia.
      * rewrite ?RetryFacts.count_calls_app, ?RetryFacts.count_exceeded_app.
        simpl. repeat split; lia.
    + repeat split; lia.
  - destruct (get_timeout backoff_factor num_attempts) as [t|e']; simpl.
    + destruct (time_sleep t); simpl;
        rewrite ?RetryFacts.count_calls_app, ?RetryFacts.count_exceeded_app;
        simpl; repeat split; lia.
    + repeat split; lia.
Qed.

Lemma exceeded_frame st :
  let st' := fst (exceeded st) in
  Retry.count_calls (Retry.events st') = Retry.count_calls (Retry.events st) /\
  (Retry.count_exceeded (Retry.events st') <=
     Retry.count_exceeded (Retry.events st) + 1)%nat.
Proof.
  unfold Retry.exceeded, Retry.call_method. simpl.
  destruct (Retry.configured callback_on_exceeded) as [name|]; simpl.
  - destruct (getattr (Retry.self_obj st) name) as [m|]; simpl.
    + destruct (m _ _) as [s [v|e']]; simpl;
        rewrite ?RetryFacts.count_calls_app, ?RetryFacts.count_exceeded_app;
        simpl; split; lia.
    + rewrite ?RetryFacts.count_calls_app, ?RetryFacts.count_exceeded_app.
      simpl. split; lia.
  - rewrite ?RetryFacts.count_calls_app, ?RetryFacts.count_exceeded_app.
    simpl. split; lia.
Qed.

(** X2: whatever the operation and the callbacks do, one call of the wrapper
    calls the operation at least once and at most
    [1 + (num_retries - num_attempts + 1) / 2] times, and calls the
    callback on exceeded at most once. *)
Theorem wrapper_calls_bounded num_attempts args st :
  let st' := fst (wrapper num_attempts args st) in
  (Retry.count_calls (Retry.events st) + 1 <=
     Retry.count_calls (Retry.events st'))%nat /\
  (Retry.count_calls (Retry.events st') <=
     Retry.count_calls (Retry.events st) +
     S (Z.to_nat ((num_retries - num_attempts + 1) / 2)))%nat /\
  (Retry.count_exceeded (Retry.events st') <=
     Retry.count_exceeded (Retry.events st) + 1)%nat.
Proof.
  funelim (wrapper num_attempts args st); simpl.
  - rewrite RetryFacts.count_calls_app, RetryFacts.count_exceeded_app.
    simpl. lia.
  - pose proof (attempt_failed_frame e num_attempts
                  (Retry.set_self s1 (Retry.emit (EvCall num_attempts) st)))
      as Hf.
    rewrite Heq in Hf. simpl in Hf. destruct Hf as (Hc & Hx & _).
    rewrite Hc, Hx, RetryFacts.count_calls_app, RetryFacts.count_exceeded_app.
    simpl. lia.
  - pose proof (attempt_failed_frame e num_attempts
                  (Retry.set_self s1 (Retry.emit (EvCall num_attempts) st)))
      as Hf.
    rewrite Heq0 in Hf. simpl in Hf. destruct Hf as (Hc & Hx & _).
    rewrite RetryFacts.count_calls_app in Hc.
    rewrite RetryFacts.count_exceeded_app in Hx. simpl in Hc, Hx.
    assert (Hdiv : Z.to_nat ((num_retries - num_attempts + 1) / 2) =
                   S (Z.to_nat ((num_retries - (num_attempts + 1 + 1) + 1) / 2))).
    { replace (num_retries - num_attempts + 1)
        with ((num_retries - (num_attempts + 1 + 1) + 1) + 1 * 2) by lia.
      rewrite Z.div_add by lia.
      rewrite Z2Nat.inj_add by (try apply Z.div_pos; lia).
      simpl. lia. }
    destruct (pos args).
    + simpl in H.
      rewrite RetryFacts.count_calls_app, RetryFacts.count_exceeded_app in H.
      simpl in H.
      destruct (wrapper _ _ _) as [st4 [v|e']]; simpl in *; lia.
    + simpl. rewrite RetryFacts.count_calls_app, RetryFacts.count_exceeded_app.
      simpl. lia.
  - pose proof (attempt_failed_frame e num_attempts
                  (Retry.set_self s1 (Retry.emit (EvCall num_attempts) st)))
      as Hf.
    rewrite Heq0 in Hf. simpl in Hf. destruct Hf as (Hc & Hx & _).
    rewrite RetryFacts.count_calls_app in Hc.
    rewrite RetryFacts.count_exceeded_app in Hx. simpl in Hc, Hx.
    pose proof (exceeded_frame st2) as He. simpl in He. lia.
Qed.

(** Filling the exception in is done once: after a first failure the list
    holds that exception, and a later failure with another exception finds
    nothing left to replace. *)
Lemma substitute_once (e1 e2 : exn) (l : list cbarg) :
  map (Retry.substitute e2) (map (Retry.substitute e1) l) =
  map (Retry.substitute e1) l.
Proof.
  rewrite map_map. apply map_ext. intros a.
  destruct a as [v| |]; try reflexivity.
  destruct v; try reflexivity. simpl.
  destruct (String.eqb s "e") eqn:He; [reflexivity|].
  destruct (String.eqb s "self") eqn:Hs; [reflexivity|].
  simpl. now rewrite He, Hs.
Qed.

(** X3: the arguments of the callback on attempt failure are shared by all the
    calls of the wrapper: after a failure with [e1], a later failure with
    [e2] leaves them as [e1] made them, so the callback is given the first
    exception again. *)
Theorem attempt_failure_args_keep_first_exception e1 e2 n1 n2 st st1 :
  Retry.attempt_failure_args st1 =
    Retry.attempt_failure_args (fst (attempt_failed e1 n1 st)) ->
  Retry.attempt_failure_args (fst (attempt_failed e2 n2 st1)) =
    map (Retry.substitute e1) (Retry.attempt_failure_args st).
Proof.
  intros Hargs.
  destruct (attempt_failed_frame e2 n2 st1) as (_ & _ & ->).
  destruct (attempt_failed_frame e1 n1 st) as (_ & _ & H1).
  rewrite Hargs, H1. apply substitute_once.
Qed.

(** A failed attempt without a callback on attempt failure, up to the
    sleep. *)
Lemma attempt_failed_no_callback e num_attempts st t :
  Retry.configured callback_on_attempt_failure = None ->
  get_timeout backoff_factor num_attempts = Ok t ->
  attempt_failed e num_attempts st =
    let st2 := Retry.RState (Retry.self_obj st)
                 (map (Retry.substitute e) (Retry.attempt_failure_args st))
                 (Retry.events st ++ [EvLogFailed e t]) in
    match time_sleep t with
    | Some e' => (st2, Raise e')
    | None => (Retry.emit (EvSleep t) st2, Ok tt)
    end.
Proof.
  intros Hcb Ht. unfold Retry.attempt_failed, Retry.sleep.
  rewrite Hcb, Ht. reflexivity.
Qed.

(** X4: a delay that [time.sleep] refuses ends the call.  When the attempt
    fails, no callback on attempt failure is configured, the delay is a
    float and [time.sleep] raises for it, the wrapper raises that exception
    after the one call of the operation: the failure is logged, and
    neither a retry nor the callback on exceeded follows. *)
Theorem wrapper_sleep_refused num_attempts args st s1 e t e' :
  Retry.configured callback_on_attempt_failure = None ->
  function args (Retry.self_obj st) = (s1, Raise e) ->
  get_timeout backoff_factor num_attempts = Ok (PyFloat t) ->
  time_sleep (PyFloat t) = Some e' ->
  wrapper num_attempts args st =
    (Retry.RState s1
       (map (Retry.substitute e) (Retry.attempt_failure_args st))
       (Retry.events st ++ [EvCall num_attempts; EvLogFailed e (PyFloat t)]),
     Raise e').
Proof.
  intros Hcb Hf Ht Hsleep. rewrite wrapper_unfold, Hf.
  rewrite (attempt_failed_no_callback _ _ _ _ Hcb Ht). cbv zeta.
  rewrite Hsleep. unfold Retry.emit. simpl. now rewrite <- app_assoc.
Qed.

(** X5: an operation that fails once and then succeeds, with retries left and
    a delay that [time.sleep] takes: the wrapper sleeps, logs the retry as
    attempt [num_attempts + 1], calls the operation again with the counter
    at [num_attempts + 2], and returns [None] without calling the callback
    on exceeded. *)
Theorem wrapper_succeeds_on_retry num_attempts kwargs st s1 s2 e r t :
  Retry.configured callback_on_attempt_failure = None ->
  num_attempts < num_retries ->
  function (CallArgs [] kwargs) (Retry.self_obj st) = (s1, Raise e) ->
  function (CallArgs [] kwargs) s1 = (s2, Ok r) ->
  get_timeout backoff_factor num_attempts = Ok t ->
  time_sleep t = None ->
  wrapper num_attempts (CallArgs [] kwargs) st =
    (Retry.RState s2
       (map (Retry.substitute e) (Retry.attempt_failure_args st))
       (Retry.events st ++
        [EvCall num_attempts;
         EvLogFailed e t;
         EvSleep t;
         EvLogRetry (num_attempts + 1);
         EvCall (num_attempts + 2)]),
     Ok VNone).
Proof.
  intros Hcb Hlt Hf1 Hf2 Ht Hsleep. rewrite wrapper_unfold, Hf1.
  rewrite (attempt_failed_no_callback _ _ _ t Hcb Ht). cbv zeta.
  rewrite Hsleep.
  destruct (Z_lt_dec num_attempts num_retries) as [_|Hge]; [|lia].
  simpl pos. cbv iota.
  rewrite wrapper_unfold. simpl Retry.self_obj. rewrite Hf2.
  unfold Retry.set_self, Retry.emit. simpl.
  rewrite <- !app_assoc. simpl.
  replace (num_attempts + 1 + 1) with (num_attempts + 2) by lia.
  reflexivity.
Qed.

(** X6: a callback on exceeded that is configured but is no attribute of
    [self].  When the retries, a number that is not negative, are used up
    by a failing attempt, no callback on attempt failure is configured and
    [time.sleep] takes the delay, the wrapper logs the failure, sleeps,
    logs that the attempts are used up, and raises the [AttributeError] of
    the lookup: no callback is called. *)
Theorem wrapper_missing_exceeded_callback num_attempts args st s1 e name t :
  Retry.configured callback_on_attempt_failure = None ->
  Retry.configured callback_on_exceeded = Some name ->
  0 <= num_retries ->
  num_retries <= num_attempts ->
  function args (Retry.self_obj st) = (s1, Raise e) ->
  getattr s1 name = None ->
  get_timeout backoff_factor num_attempts = Ok t ->
  time_sleep t = None ->
  wrapper num_attempts args st =
    (Retry.RState s1
       (map (Retry.substitute e) (Retry.attempt_failure_args st))
       (Retry.events st ++
        [EvCall num_attempts; EvLogFailed e t; EvSleep t;
         EvLogExceeded num_retries]),
     Raise (Exc AttributeError (VStr name))).
Proof.
  intros Haf Hex Hnn Hge Hf Hget Ht Hsleep. rewrite wrapper_unfold, Hf.
  rewrite (attempt_failed_no_callback _ _ _ t Haf Ht). cbv zeta.
  rewrite Hsleep.
  destruct (Z_lt_dec num_attempts num_retries) as [Hlt|_]; [lia|].
  unfold Retry.exceeded, Retry.call_method. rewrite Hex. simpl.
  rewrite Hget. unfold Retry.emit. simpl. now rewrite <- !app_assoc.
Qed.

(** X30: a delay that cannot be computed ends the call as well.  With a float
    back-off factor and an attempt counter of 1025 or more, [get_timeout]
    raises [OverflowError]; when the attempt fails and no callback on
    attempt failure is configured, the wrapper raises it after the one
    call of the operation, before the failure is logged. *)
Theorem wrapper_delay_overflow num_attempts args st s1 e f :
  backoff_factor = PyFloat f ->
  1025 <= num_attempts ->
  Retry.configured callback_on_attempt_failure = None ->
  function args (Retry.self_obj st) = (s1, Raise e) ->
  wrapper num_attempts args st =
    (Retry.RState s1
       (map (Retry.substitute e) (Retry.attempt_failure_args st))
       (Retry.events st ++ [EvCall num_attempts]),
     Raise (Exc OverflowError (VStr "int too large to convert to float"))).
Proof.
  intros Hb Hn Hcb Hf. rewrite wrapper_unfold, Hf.
  unfold Retry.attempt_failed. rewrite Hcb, Hb.
  rewrite get_timeout_float by lia.
  destruct (num_attempts <=? 1024)%Z eqn:Hle; [lia|]. reflexivity.
Qed.
End Facts.

Lemma attempt_failure_args_keep_first_exception_witness :
  Retry.attempt_failure_args
    (fst (Retry.attempt_failed Examples.any_method Examples.time_sleep None
            (PyInt 5) Examples.boom 2
            (fst (Retry.attempt_failed Examples.any_method Examples.time_sleep
                    None (PyInt 5) Examples.unreachable 0
                    Examples.start_with_args)))) =
  [AExc Examples.unreachable; ASelf; AVal (VInt 1)].
Proof.
  apply (attempt_failure_args_keep_first_exception Examples.any_method
           Examples.time_sleep None (PyInt 5)
           Examples.unreachable Examples.boom 0 2 Examples.start_with_args).
  reflexivity.
Defined.

(** [backoff_factor=-5]: the first delay is [-2.5]. *)
Lemma wrapper_sleep_refused_witness :
  Retry.wrapper Examples.always_fails Examples.any_method Examples.time_sleep
    (Some "on_exceeded") None 3 (PyInt (-5)) [] 0 Examples.no_args
    Examples.start =
  (Retry.RState 1%nat []
     [EvCall 0;
      EvLogFailed Examples.unreachable (PyFloat (SFopp Examples.f_2_5))],
   Raise (Exc ValueError (VStr "sleep length must be non-negative"))).
Proof.
  apply (wrapper_sleep_refused Examples.always_fails Examples.any_method
           Examples.time_sleep (Some "on_exceeded") None 3 (PyInt (-5)) [] 0
           Examples.no_args Examples.start 1%nat Examples.unreachable
           (SFopp Examples.f_2_5));
    reflexivity.
Defined.

Lemma wrapper_succeeds_on_retry_witness :
  Retry.wrapper Examples.fails_once Examples.any_method Examples.time_sleep
    (Some "on_exceeded") None 3 (PyInt 5) [] 0 (CallArgs [] []) Examples.start =
  (Retry.RState 2%nat []
     [EvCall 0; EvLogFailed Examples.unreachable (PyFloat Examples.f_2_5);
      EvSleep (PyFloat Examples.f_2_5); EvLogRetry (0 + 1); EvCall (0 + 2)],
   Ok VNone).
Proof.
  apply (wrapper_succeeds_on_retry Examples.fails_once Examples.any_method
           Examples.time_sleep (Some "on_exceeded") None 3 (PyInt 5) [] 0 []
           Examples.start 1%nat 2%nat Examples.unreachable (VStr "connected")
           (PyFloat Examples.f_2_5));
    first [reflexivity | lia].
Defined.

Lemma wrapper_missing_exceeded_callback_witness :
  Retry.wrapper Examples.always_fails Examples.no_method Examples.time_sleep
    (Some "on_exceeded") None 0 (PyInt 5) [] 0 Examples.no_args Examples.start =
  (Retry.RState 1%nat []
     [EvCall 0; EvLogFailed Examples.unreachable (PyFloat Examples.f_2_5);
      EvSleep (PyFloat Examples.f_2_5); EvLogExceeded 0],
   Raise (Exc AttributeError (VStr "on_exceeded"))).
Proof.
  apply (wrapper_missing_exceeded_callback Examples.always_fails
           Examples.no_method Examples.time_sleep (Some "on_exceeded") None 0
           (PyInt 5) [] 0 Examples.no_args Examples.start 1%nat
           Examples.unreachable "on_exceeded" (PyFloat Examples.f_2_5));
    first [reflexivity | lia].
Defined.

(** The float factor 0.1 at attempt counter 1100. *)
Lemma wrapper_delay_overflow_witness :
  Retry.wrapper Examples.always_fails Examples.any_method Examples.time_sleep
    (Some "on_exceeded") None 2000 (PyFloat Examples.f_0_1) [] 1100
    Examples.no_args Examples.start =
  (Retry.RState 1%nat [] [EvCall 1100],
   Raise (Exc OverflowError (VStr "int too large to convert to float"))).
Proof.
  apply (wrapper_delay_overflow Examples.always_fails Examples.any_method
           Examples.time_sleep (Some "on_exceeded") None 2000
           (PyFloat Examples.f_0_1) [] 1100 Examples.no_args Examples.start
           1%nat Examples.unreachable Examples.f_0_1);
    first [reflexivity | lia].
Defined.
End RetryMore.

(** ** More on consumer threads *)

Module ConsumerMore.
Section Facts.
Variable env : Env.

Abbreviation run := (Connector.run env).
Abbreviation join := (Connector.join env).
Abbreviation stop_each := (Connector.stop_each env).
Abbreviation stop_consumers := (Connector.stop_consumers env).

(** X7: with the default error handler [run] returns normally whatever the
    receive loop does: the handler only logs. *)
Theorem run_default_handler_returns (self : ConsumerThread) (w : world) :
  error_func self = DefaultErrorHandler ->
  snd (run self w) = Ok VNone.
Proof.
  intros Hh.
  unfold Connector.run, try_except, bind, Connector.ext_unit, ret.
  destruct (env_unit env (trace w) (StartConsuming (channel self))) as [e|];
    [|reflexivity].
  unfold Connector.log, Connector.call_error_func. rewrite Hh.
  unfold Connector.default_error_handler, bind, Connector.log, ret.
  destruct (class_of e); reflexivity.
Qed.

(** X8: [run] calls the error handler at most once, and raises only what a
    handler of the caller raised when it was called with this worker. *)
Theorem run_raises_only_from_handler (self : ConsumerThread) (w : world) :
  (length (Connector.error_func_calls (trace (fst (run self w)))) <=
     length (Connector.error_func_calls (trace w)) + 1)%nat /\
  forall e', snd (run self w) = Raise e' ->
    exists name e tr,
      error_func self = UserErrorHandler name /\
      env_unit env tr (CallErrorFunc (UserErrorHandler name) self e) = Some e'.
Proof.
  unfold Connector.run, try_except, bind, Connector.ext_unit, ret.
  destruct (env_unit env (trace w) (StartConsuming (channel self))) as [e|].
  2:{ simpl. rewrite ConsumerFacts.error_func_calls_app, length_app. simpl.
      split; [lia|discriminate]. }
  assert (Hgo : forall w0 : world,
    let r := (let* _ := Connector.log ERROR (MsgException e) in
              let* _ := Connector.call_error_func env (error_func self) self e in
              ret VNone) w0 in
    (length (Connector.error_func_calls (trace (fst r))) <=
       length (Connector.error_func_calls (trace w0)) + 1)%nat /\
    forall e', snd r = Raise e' ->
      exists name e0 tr,
        error_func self = UserErrorHandler name /\
        env_unit env tr (CallErrorFunc (UserErrorHandler name) self e0)
          = Some e').
  { intros w0. unfold bind, Connector.log, Connector.call_error_func, ret.
    destruct (error_func self) as [|name]; simpl.
    - unfold Connector.default_error_handler, bind, Connector.log, ret. simpl.
      rewrite !ConsumerFacts.error_func_calls_app, !length_app. simpl.
      split; [lia|discriminate].
    - unfold bind, Connector.ext_unit, ret. simpl.
      destruct (env_unit env _ (CallErrorFunc _ _ _)) as [e1|] eqn:Hcall;
        simpl; rewrite !ConsumerFacts.error_func_calls_app, !length_app; simpl;
        (split; [lia|]); [|discriminate].
      intros e' [= <-]. eauto. }
  assert (Hrec : Connector.error_func_calls
                   (trace (record (StartConsuming (channel self)) w)) =
                 Connector.error_func_calls (trace w)).
  { simpl. rewrite ConsumerFacts.error_func_calls_app. simpl.
    apply app_nil_r. }
  destruct (class_of e);
    try (specialize (Hgo (record (StartConsuming (channel self)) w));
         rewrite Hrec in Hgo; exact Hgo).
  unfold bind, Connector.log, ret. simpl.
  rewrite !ConsumerFacts.error_func_calls_app, !length_app. simpl.
  split; [lia|discriminate].
Qed.

Lemma thread_joins_app tr1 tr2 :
  Connector.thread_joins (tr1 ++ tr2) =
  Connector.thread_joins tr1 ++ Connector.thread_joins tr2.
Proof.
  induction tr1 as [|c tr1 IH]; [reflexivity|].
  destruct c; simpl; rewrite IH; reflexivity.
Qed.

(** The shape of a [join]: some calls to the broker and the log, none of
    them a thread join, then the join of the worker's own thread, whose
    outcome is the outcome of [join]. *)
Lemma join_shape (self : ConsumerThread) (w : world) :
  exists calls,
    join self w =
      (World (heap w) (trace w ++ calls ++ [ThreadJoin (ident self)])
         (threads w),
       match env_unit env (trace w ++ calls) (ThreadJoin (ident self)) with
       | None => Ok VNone
       | Some e => Raise e
       end) /\
    Connector.thread_joins calls = [].
Proof.
  destruct w as [h tr n]. simpl.
  unfold Connector.join, try_finally, try_except, bind, ret,
    Connector.ext_unit, Connector.ext_bool, Connector.log, record. simpl.
  destruct (env_unit env tr (StopConsuming (channel self))) as [x|]; simpl.
  2: destruct (env_bool env (tr ++ [StopConsuming (channel self)])
                 (ChannelIsOpen (channel self))); simpl.
  2: destruct (env_unit env _ (ChannelClose _)) as [x|]; simpl.
  3, 4: destruct (env_bool env _ (ConnIsOpen _)); simpl.
  3, 5: destruct (env_unit env _ (ConnClose _)) as [x|]; simpl.
  all: rewrite <- ?app_assoc; simpl.
  all: match goal with
       | |- context [env_unit env (_ ++ ?l) (ThreadJoin _)] => exists l
       end.
  all: rewrite <- ?app_assoc; simpl.
  all: destruct (env_unit env _ (ThreadJoin _)); split; reflexivity.
Qed.

(** X9: nothing the broker does makes [join] fail: [join] raises only what
    joining the worker's own thread raised, and in every case its last call
    is that thread join. *)
Theorem join_raises_only_thread_join (self : ConsumerThread) (w : world) :
  (exists tr, trace (fst (join self w)) = tr ++ [ThreadJoin (ident self)]) /\
  forall e, snd (join self w) = Raise e ->
    exists tr, env_unit env tr (ThreadJoin (ident self)) = Some e.
Proof.
  destruct (join_shape self w) as (calls & -> & _). simpl. split.
  - exists (trace w ++ calls). now rewrite app_assoc.
  - intros e He. exists (trace w ++ calls).
    destruct (env_unit env _ (ThreadJoin _)); congruence.
Qed.

(** X10: a worker whose channel and connection read closed: [join] asks the
    broker to stop delivery, closes nothing, and joins the thread. *)
Theorem join_closed_resources (self : ConsumerThread) (w : world) :
  env_unit env (trace w) (StopConsuming (channel self)) = None ->
  env_bool env (trace w ++ [StopConsuming (channel self)])
    (ChannelIsOpen (channel self)) = false ->
  env_bool env (trace w ++ [StopConsuming (channel self);
                            ChannelIsOpen (channel self)])
    (ConnIsOpen (connection self)) = false ->
  trace (fst (join self w)) =
    trace w ++ [StopConsuming (channel self); ChannelIsOpen (channel self);
                ConnIsOpen (connection self); ThreadJoin (ident self)].
Proof.
  intros Hstop Hch Hconn. destruct w as [h tr n]. simpl in *.
  unfold Connector.join, try_finally, try_except, bind, ret,
    Connector.ext_unit, Connector.ext_bool, Connector.log, record. simpl.
  rewrite Hstop. simpl. rewrite Hch. simpl.
  rewrite <- !app_assoc. simpl. rewrite Hconn. simpl.
  rewrite <- !app_assoc. simpl.
  destruct (env_unit env _ (ThreadJoin _)); reflexivity.
Qed.

(** X11: names that are not registered are passed over: when none of the names
    [stop_consumers] goes through is registered, and so on a connector
    without consumers, nothing happens and [None] is returned. *)
Theorem stop_consumers_unregistered (self : MQConnector)
    (names : list string) (w : world) :
  Forall (fun name => PyDict.mem name (consumers self) = false)
    (Connector.names_to_stop self names) ->
  stop_consumers self names w = (w, Ok VNone).
Proof.
  unfold Connector.stop_consumers.
  induction (Connector.names_to_stop self names) as [|name l IH];
    intros Hall; [reflexivity|].
  inversion Hall as [|? ? Hname Hl]; subst.
  simpl. unfold bind, try_except, ret. rewrite Hname. now apply IH.
Qed.

Lemma stop_each_joins (self : MQConnector) (names : list string) :
  (forall tr t, env_unit env tr (ThreadJoin t) = None) ->
  forall w,
    snd (stop_each self names w) = Ok VNone /\
    Connector.thread_joins (trace (fst (stop_each self names w))) =
      Connector.thread_joins (trace w) ++
      map ident (Connector.registered self names).
Proof.
  intros Hjoin. induction names as [|name names IH]; intros w.
  - simpl. now rewrite app_nil_r.
  - simpl. unfold bind, try_except, ret, raise.
    unfold PyDict.mem.
    destruct (PyDict.get name (consumers self)) as [thread|]; [|apply IH].
    destruct (join_shape thread w) as (calls & -> & Hcalls).
    rewrite Hjoin.
    destruct (IH (World (heap w)
                    (trace w ++ calls ++ [ThreadJoin (ident thread)])
                    (threads w))) as [Hr Ht].
    split; [exact Hr|]. rewrite Ht. simpl.
    rewrite !thread_joins_app, Hcalls. simpl.
    now rewrite <- app_assoc.
Qed.

(** X12: when joining a thread never fails, [stop_consumers] returns [None]
    whatever the broker answers, and it has joined the thread of every
    registered worker among the names, once for each time it is named and
    in the order of the names. *)
Theorem stop_consumers_joins_all (self : MQConnector) (names : list string)
    (w : world) :
  (forall tr t, env_unit env tr (ThreadJoin t) = None) ->
  snd (stop_consumers self names w) = Ok VNone /\
  Connector.thread_joins (trace (fst (stop_consumers self names w))) =
    Connector.thread_joins (trace w) ++
    map ident (Connector.registered self (Connector.names_to_stop self names)).
Proof.
  intros Hjoin. unfold Connector.stop_consumers.
  now apply stop_each_joins.
Qed.
End Facts.

Lemma run_default_handler_returns_witness :
  snd (Connector.run Examples.env_callback_raises
         (Examples.thread 0 DefaultErrorHandler) Examples.idle) = Ok VNone.
Proof.
  apply (run_default_handler_returns Examples.env_callback_raises
           (Examples.thread 0 DefaultErrorHandler) Examples.idle).
  reflexivity.
Defined.

Lemma join_closed_resources_witness :
  trace (fst (Connector.join Examples.env_all_closed
                (Examples.thread 0 DefaultErrorHandler) Examples.idle)) =
    trace Examples.idle ++
    [StopConsuming 0%nat; ChannelIsOpen 0%nat; ConnIsOpen 0%nat; ThreadJoin 0].
Proof.
  apply (join_closed_resources Examples.env_all_closed
           (Examples.thread 0 DefaultErrorHandler) Examples.idle);
    reflexivity.
Defined.

Lemma stop_consumers_unregistered_witness :
  Connector.stop_consumers Examples.env_ok Examples.two_consumers ["nobody"]
    Examples.idle = (Examples.idle, Ok VNone).
Proof.
  apply (stop_consumers_unregistered Examples.env_ok Examples.two_consumers
           ["nobody"] Examples.idle).
  repeat constructor.
Defined.

(** The broker refuses to stop delivery for both workers; both threads are
    joined all the same. *)
Lemma stop_consumers_joins_all_witness :
  snd (Connector.stop_consumers Examples.env_stop_fails Examples.two_consumers
         [] Examples.idle) = Ok VNone /\
  Connector.thread_joins
    (trace (fst (Connector.stop_consumers Examples.env_stop_fails
                   Examples.two_consumers [] Examples.idle))) =
    Connector.thread_joins (trace Examples.idle) ++
    map ident (Connector.registered Examples.two_consumers
                 (Connector.names_to_stop Examples.two_consumers [])).
Proof.
  apply (stop_consumers_joins_all Examples.env_stop_fails
           Examples.two_consumers [] Examples.idle).
  intros tr t. reflexivity.
Defined.
End ConsumerMore.

(** ** More on the connector *)

Module ConnectorMore.
Section Facts.
Variable env : Env.

Abbreviation get_connection_params := (Connector.get_connection_params env).
Abbreviation create_mq_connection := (Connector.create_mq_connection env).
Abbreviation register_consumer := (Connector.register_consumer env).
Abbreviation register_all := (Connector.register_all env).
Abbreviation emit_mq_message := (Connector.emit_mq_message env).

Lemma mq_credentials_frame (self : MQConnector) (w w0 : world) :
  fst (Connector.mq_credentials self w) = w /\
  snd (Connector.mq_credentials self w) = snd (Connector.mq_credentials self w0).
Proof.
  unfold Connector.mq_credentials, bind, lift, ret, raise.
  destruct (negb (truthy (config self))); [split; reflexivity|].
  destruct (py_getitem (config self) "users") as [users|e];
    [|split; reflexivity].
  destruct (py_getitem users (service_name self)) as [user|e];
    [|split; reflexivity].
  destruct (py_get user "user" (VStr "guest")); [|split; reflexivity].
  destruct (py_get user "password" (VStr "guest")); split; reflexivity.
Qed.

(** [get_connection_params] leaves the world alone and does not look at
    it. *)
Lemma get_connection_params_frame (self : MQConnector) (vhost : string)
    (kwargs : list (string * value)) (w w0 : world) :
  fst (get_connection_params self vhost kwargs w) = w /\
  snd (get_connection_params self vhost kwargs w) =
    snd (get_connection_params self vhost kwargs w0).
Proof.
  unfold Connector.get_connection_params, bind, lift, ret, raise.
  destruct (py_get (config self) "server" (VStr "localhost")) as [server|e];
    [|split; reflexivity].
  destruct (py_get (config self) "port" (VStr "5672")) as [port|e];
    [|split; reflexivity].
  destruct (py_int env port) as [p|e]; [|split; reflexivity].
  destruct (mq_credentials_frame self w w0) as [Hw Hr].
  destruct (Connector.mq_credentials self w) as [w1 r1].
  destruct (Connector.mq_credentials self w0) as [w2 r2].
  simpl in Hw, Hr. subst w1 r2.
  destruct r1 as [creds|e]; [|split; reflexivity].
  destruct (check_parameters env _); split; reflexivity.
Qed.

(** X13: building the connection parameters reads the configuration and nothing
    else: it leaves the world as it is (no call to the broker), and its
    result does not depend on the world. *)
Theorem get_connection_params_pure (self : MQConnector) (vhost : string)
    (kwargs : list (string * value)) (w w0 : world) :
  fst (get_connection_params self vhost kwargs w) = w /\
  snd (get_connection_params self vhost kwargs w) =
    snd (get_connection_params self vhost kwargs w0).
Proof. apply get_connection_params_frame. Qed.

(** X14: the credentials of a service that is configured: the entries [user]
    and [password] of its record, each ["guest"] when the record lacks
    it. *)
Theorem mq_credentials_defaults (self : MQConnector) (w : world)
    (d users user : list (string * value)) :
  config self = VDict d -> d <> [] ->
  PyDict.get "users" d = Some (VDict users) ->
  PyDict.get (service_name self) users = Some (VDict user) ->
  Connector.mq_credentials self w =
    (w, Ok {| username := default (VStr "guest") (PyDict.get "user" user);
              password := default (VStr "guest") (PyDict.get "password" user) |}).
Proof.
  intros Hc Hd Hu Hs.
  unfold Connector.mq_credentials, bind, lift, ret. rewrite Hc.
  destruct d as [|kv d0]; [congruence|].
  simpl truthy. simpl negb. cbv iota.
  unfold py_getitem. rewrite Hu, Hs. unfold py_get.
  destruct (PyDict.get "user" user), (PyDict.get "password" user); reflexivity.
Qed.

(** X15: the credentials that cannot be had: an empty or missing configuration
    raises the exception "Configuration is not set"; a configuration
    whose [users] have no entry for the service raises the [KeyError] of
    the service name.  Neither touches the world. *)
Theorem mq_credentials_errors (self : MQConnector) (w : world) :
  (truthy (config self) = false ->
   Connector.mq_credentials self w =
     (w, Raise (Exc (OtherError "Exception")
                  (VStr "Configuration is not set")))) /\
  (forall d users,
     config self = VDict d -> d <> [] ->
     PyDict.get "users" d = Some (VDict users) ->
     PyDict.get (service_name self) users = None ->
     Connector.mq_credentials self w =
       (w, Raise (Exc KeyError (VStr (service_name self))))).
Proof.
  split.
  - intros Hf. unfold Connector.mq_credentials, raise. now rewrite Hf.
  - intros d users Hc Hd Hu Hs.
    unfold Connector.mq_credentials, bind, lift, ret. rewrite Hc.
    destruct d as [|kv d0]; [congruence|].
    simpl truthy. simpl negb. cbv iota.
    unfold py_getitem. now rewrite Hu, Hs.
Qed.

(** What the parameters are made of when [get_connection_params]
    returns. *)
Lemma get_connection_params_Ok (self : MQConnector) (vhost : string)
    (kwargs : list (string * value)) (w w' : world)
    (p : ConnectionParameters) :
  get_connection_params self vhost kwargs w = (w', Ok p) ->
  exists d,
    config self = VDict d /\
    host p = default (VStr "localhost") (PyDict.get "server" d) /\
    py_int env (default (VStr "5672") (PyDict.get "port" d)) = Ok (port p) /\
    virtual_host p = vhost /\ extra p = kwargs /\
    snd (Connector.mq_credentials self w) = Ok (credentials p) /\
    check_parameters env p = None.
Proof.
  unfold Connector.get_connection_params, bind, lift, ret, raise.
  destruct (config self) as [| b | z | s0 | l | d | o] eqn:Hc;
    try discriminate.
  intros H. exists d. split; [reflexivity|]. revert H. simpl.
  destruct (PyDict.get "server" d) as [server|];
    destruct (PyDict.get "port" d) as [port|]; simpl;
    destruct (py_int env _) as [n|e]; try discriminate;
    destruct (Connector.mq_credentials self w) as [w1 [creds|e]];
    try discriminate;
    destruct (check_parameters env _) eqn:Hcheck; try discriminate;
    intros [= <- <-]; simpl; auto 10.
Qed.

(** X16: the parameters [get_connection_params] returns: the configuration is
    a dict, the host is its [server] or ["localhost"], the port is [int]
    of its [port] or of ["5672"], the virtual host and the extra options
    are the ones given, the credentials are those of [mq_credentials], and
    pika's validation has accepted them. *)
Theorem get_connection_params_result (self : MQConnector) (vhost : string)
    (kwargs : list (string * value)) (w w' : world)
    (p : ConnectionParameters) :
  get_connection_params self vhost kwargs w = (w', Ok p) ->
  exists d,
    config self = VDict d /\
    host p = default (VStr "localhost") (PyDict.get "server" d) /\
    py_int env (default (VStr "5672") (PyDict.get "port" d)) = Ok (port p) /\
    virtual_host p = vhost /\ extra p = kwargs /\
    snd (Connector.mq_credentials self w) = Ok (credentials p) /\
    check_parameters env p = None.
Proof. apply get_connection_params_Ok. Qed.

(** X17: [create_mq_connection] with an empty or missing configuration raises
    "Configuration is not set" and asks nothing of the broker.  With a
    configuration, when [get_connection_params] returns parameters it asks
    the broker for one thing, a connection with these parameters, and
    returns or raises as the broker does; when [get_connection_params]
    raises, it raises the same and asks nothing of the broker. *)
Theorem create_mq_connection_calls (self : MQConnector) (vhost : string)
    (kwargs : list (string * value)) (w : world) :
  (truthy (config self) = false ->
   create_mq_connection self vhost kwargs w =
     (w, Raise (Exc (OtherError "Exception")
                  (VStr "Configuration is not set")))) /\
  (truthy (config self) = true ->
   forall p, snd (get_connection_params self vhost kwargs w) = Ok p ->
     create_mq_connection self vhost kwargs w =
       (record (BlockingConnection p) w,
        env_handle env (trace w) (BlockingConnection p))) /\
  (truthy (config self) = true ->
   forall e, snd (get_connection_params self vhost kwargs w) = Raise e ->
     create_mq_connection self vhost kwargs w = (w, Raise e)).
Proof.
  unfold Connector.create_mq_connection, raise.
  pose proof (get_connection_params_frame self vhost kwargs w w) as [Hw _].
  split; [|split].
  - intros ->. reflexivity.
  - intros -> p Hp. unfold bind. simpl.
    destruct (get_connection_params self vhost kwargs w) as [w1 r].
    simpl in Hw, Hp. subst w1 r. reflexivity.
  - intros -> e He. unfold bind. simpl.
    destruct (get_connection_params self vhost kwargs w) as [w1 r].
    simpl in Hw, He. subst w1 r. reflexivity.
Qed.

(** What setting a worker up does to the world: a new thread object, and
    calls that only set things up; when it returns, the calls are the five
    of the source in their order, with a prefetch count of 50 and a queue
    that is not deleted automatically. *)
Lemma ConsumerThread_init_shape (params : ConnectionParameters)
    (q : string) (cb : callable) (h : error_handler) (auto_ack : bool)
    (w : world) :
  let r := Connector.ConsumerThread_init env params q cb h auto_ack w in
  heap (fst r) = heap w /\ threads (fst r) = S (threads w) /\
  (exists calls, trace (fst r) = trace w ++ calls /\
                 forallb Connector.is_setup_call calls = true) /\
  forall t, snd r = Ok t ->
    ident t = threads w /\ callback_func t = cb /\ error_func t = h /\
    trace (fst r) =
      trace w ++ Connector.setup_calls params (connection t) (channel t) q cb
                   auto_ack.
Proof.
  destruct w as [hp tr n].
  unfold Connector.ConsumerThread_init, bind, ret, Connector.Thread_init,
    Connector.ext_handle, Connector.ext_unit, record. simpl.
  destruct (env_handle env tr (BlockingConnection params)) as [c|e]; simpl.
  2:{ repeat split; try discriminate. eexists. split; reflexivity. }
  destruct (env_handle env _ (ConnChannel c)) as [ch|e]; simpl.
  2:{ repeat split; try discriminate.
      rewrite <- ?app_assoc. eexists. split; reflexivity. }
  destruct (env_unit env _ (BasicQos ch 50)); simpl.
  { repeat split; try discriminate.
    rewrite <- ?app_assoc. eexists. split; reflexivity. }
  destruct (env_unit env _ (QueueDeclare ch q false)); simpl.
  { repeat split; try discriminate.
    rewrite <- ?app_assoc. eexists. split; reflexivity. }
  destruct (env_unit env _ (BasicConsume ch cb q auto_ack)); simpl.
  { repeat split; try discriminate.
    rewrite <- ?app_assoc. eexists. split; reflexivity. }
  split; [reflexivity|]. split; [reflexivity|]. split.
  - rewrite <- ?app_assoc. eexists. split; reflexivity.
  - intros t [= <-]. simpl. rewrite <- ?app_assoc. auto.
Qed.

(** X18: [register_consumer] only sets up: whatever happens, the calls it makes
    open a connection and a channel, set the prefetch count, declare the
    queue and subscribe.  It stops, closes and joins nothing, so a worker
    it replaces keeps its connection, and it shares nothing with the
    caller. *)
Theorem register_consumer_only_sets_up (self : MQConnector)
    (name vhost q : string) (cb : callable) (on_error : option callable)
    (auto_ack : bool) (w : world) :
  let w' := fst (register_consumer self name vhost q cb on_error auto_ack w) in
  heap w' = heap w /\
  exists calls, trace w' = trace w ++ calls /\
                forallb Connector.is_setup_call calls = true.
Proof.
  unfold Connector.register_consumer, bind, ret.
  pose proof (get_connection_params_frame self vhost [] w w) as [Hw _].
  destruct (get_connection_params self vhost [] w) as [w1 [p|e]];
    simpl in Hw; subst w1; simpl.
  2:{ split; [reflexivity|]. exists []. now rewrite app_nil_r. }
  pose proof (ConsumerThread_init_shape p q cb
                (Connector.or_default_error_handler on_error) auto_ack w)
    as (Hh & _ & Hcalls & _).
  destruct (Connector.ConsumerThread_init _ _ _ _ _ _ w) as [w2 [t|e]];
    simpl in *; auto.
Qed.

(** What a registration that returns has done. *)
Lemma register_consumer_Ok_setup (self : MQConnector)
    (name vhost q : string) (cb : callable) (on_error : option callable)
    (auto_ack : bool) (w w' : world) (self' : MQConnector) :
  register_consumer self name vhost q cb on_error auto_ack w = (w', Ok self') ->
  exists params thread,
    PyDict.get name (consumers self') = Some thread /\
    ident thread = threads w /\ threads w' = S (threads w) /\
    callback_func thread = cb /\
    error_func thread = Connector.or_default_error_handler on_error /\
    virtual_host params = vhost /\
    trace w' =
      trace w ++ Connector.setup_calls params (connection thread)
                   (channel thread) q cb auto_ack.
Proof.
  unfold Connector.register_consumer, bind, ret.
  pose proof (get_connection_params_frame self vhost [] w w) as [Hw _].
  destruct (get_connection_params self vhost [] w) as [w1 [p|e]] eqn:Hp;
    simpl in Hw; subst w1; [|discriminate].
  destruct (get_connection_params_Ok self vhost [] w w p Hp)
    as (d & _ & _ & _ & Hv & _).
  pose proof (ConsumerThread_init_shape p q cb
                (Connector.or_default_error_handler on_error) auto_ack w)
    as (_ & Hthreads & _ & Hok).
  destruct (Connector.ConsumerThread_init _ _ _ _ _ _ w) as [w2 [t|e]];
    [|discriminate].
  simpl in Hthreads, Hok. destruct (Hok t eq_refl) as (Hi & Hcb & Hh & Htr).
  intros [= <- <-]. exists p, t. simpl.
  split; [apply PyDictFacts.get_set_eq|]. auto 10.
Qed.

(** X19: a registration that returns: the worker stored under the name has a
    thread object of its own, the given callback and the handler given or
    the default one, and the calls made are the five that set it up. *)
Theorem register_consumer_sets_worker_up (self : MQConnector)
    (name vhost q : string) (cb : callable) (on_error : option callable)
    (auto_ack : bool) (w w' : world) (self' : MQConnector) :
  register_consumer self name vhost q cb on_error auto_ack w = (w', Ok self') ->
  exists params thread,
    PyDict.get name (consumers self') = Some thread /\
    ident thread = threads w /\ threads w' = S (threads w) /\
    callback_func thread = cb /\
    error_func thread = Connector.or_default_error_handler on_error /\
    virtual_host params = vhost /\
    trace w' =
      trace w ++ Connector.setup_calls params (connection thread)
                   (channel thread) q cb auto_ack.
Proof. apply register_consumer_Ok_setup. Qed.

(** Storing a worker with a thread newer than all those of the registry
    keeps the threads of the registry distinct. *)
Lemma set_worker_idents (name : string) (t : ConsumerThread)
    (cs : PyDict.t ConsumerThread) (n : nat) :
  ident t = n ->
  Forall (fun i => (i < n)%nat) (Connector.worker_idents cs) ->
  List.NoDup (Connector.worker_idents cs) ->
  Forall (fun i => (i < S n)%nat)
    (Connector.worker_idents (PyDict.set name t cs)) /\
  List.NoDup (Connector.worker_idents (PyDict.set name t cs)).
Proof.
  intros Hid. unfold Connector.worker_idents.
  induction cs as [|[k v] cs IH]; simpl; intros Hlt Hnd.
  - rewrite Hid. split; [repeat constructor|].
    constructor; [intros []|constructor].
  - inversion Hlt as [|? ? Hv Hlt']; subst.
    inversion Hnd as [|? ? Hnotin Hnd']; subst.
    assert (Hweak : Forall (fun i => (i < S (ident t))%nat)
                      (map (fun kv => ident (snd kv)) cs)).
    { eapply List.Forall_impl; [|exact Hlt']. simpl. intros; lia. }
    destruct (String.eqb name k); simpl.
    + split; [constructor; [lia|exact Hweak]|].
      constructor; [|exact Hnd'].
      intros Hin. rewrite List.Forall_forall in Hlt'.
      specialize (Hlt' _ Hin). lia.
    + destruct (IH Hlt' Hnd') as [IHlt IHnd].
      split; [constructor; [lia|exact IHlt]|].
      constructor; [|exact IHnd].
      intros Hin.
      assert (Hcases : forall i,
                In i (map (fun kv => ident (snd kv)) (PyDict.set name t cs)) ->
                i = ident t \/ In i (map (fun kv => ident (snd kv)) cs)).
      { clear. induction cs as [|[k0 v0] cs IHcs]; simpl.
        - intros i [<-|[]]. now left.
        - intros i. destruct (String.eqb name k0); simpl.
          + intros [<-|Hi]; auto.
          + intros [<-|Hi]; auto. destruct (IHcs i Hi); auto. }
      destruct (Hcases _ Hin) as [Heq|Hin']; [lia|contradiction].
Qed.

Lemma register_all_idents (regs : list Connector.registration) :
  forall self w w' self',
    register_all self regs w = (w', Ok self') ->
    Forall (fun i => (i < threads w)%nat)
      (Connector.worker_idents (consumers self)) ->
    List.NoDup (Connector.worker_idents (consumers self)) ->
    Forall (fun i => (i < threads w')%nat)
      (Connector.worker_idents (consumers self')) /\
    List.NoDup (Connector.worker_idents (consumers self')).
Proof.
  induction regs as [|r regs IH]; intros self w w' self' Hall Hlt Hnd.
  - simpl in Hall. unfold ret in Hall. injection Hall as <- <-. auto.
  - simpl in Hall. unfold bind in Hall.
    destruct (register_consumer self _ _ _ _ _ _ w) as [w1 [self1|e]] eqn:Hreg;
      [|discriminate].
    destruct (RegistryFacts.register_consumer_Ok _ _ _ _ _ _ _ _ _ _ _ Hreg)
      as [thread Hcs].
    destruct (register_consumer_Ok_setup _ _ _ _ _ _ _ _ _ _ Hreg)
      as (params & thread' & Hget & Hid & Hthreads & _).
    rewrite Hcs, PyDictFacts.get_set_eq in Hget. injection Hget as <-.
    destruct (set_worker_idents (Connector.reg_name r) thread (consumers self)
                (threads w) Hid Hlt Hnd) as [Hlt1 Hnd1].
    apply (IH self1 w1 w' self' Hall); rewrite Hcs, ?Hthreads; assumption.
Qed.

(** X20: every registration makes a thread object of its own: after any
    sequence of registrations on a new connector, the workers of the
    registry have pairwise distinct threads. *)
Theorem register_all_distinct_threads (self : MQConnector)
    (regs : list Connector.registration) (w w' : world) (self' : MQConnector) :
  consumers self = [] ->
  register_all self regs w = (w', Ok self') ->
  List.NoDup (Connector.worker_idents (consumers self')).
Proof.
  intros Hempty Hall.
  apply (register_all_idents regs self w w' self' Hall);
    rewrite Hempty; constructor.
Qed.

(** X21: a publish the broker refuses: [emit_mq_message] raises what
    [basic_publish] raised and stops there, so the channel it opened is
    not closed; the payload has its [message_id] all the same. *)
Theorem emit_mq_message_publish_fails
    (connection : conn_id) (q : string) (request_data : loc)
    (exchange : option string) (w : world) (d : list (string * value))
    (ch : chan_id) (body : string) (e : exn) :
  heap w !! request_data = Some (VDict d) -> d <> [] ->
  let message_id := env_uuid env (trace w) in
  let d' := PyDict.set "message_id" (VStr message_id) d in
  let publish :=
    BasicPublish ch (Connector.or_empty exchange) q body "1000" in
  env_handle env (trace w ++ [Uuid4]) (ConnChannel connection) = Ok ch ->
  dict_to_b64 env (VDict d') = Ok body ->
  env_unit env (trace w ++ [Uuid4; ConnChannel connection]) publish = Some e ->
  emit_mq_message connection q request_data exchange w =
    (World (<[request_data := VDict d']> (heap w))
           (trace w ++ [Uuid4; ConnChannel connection; publish])
           (threads w),
     Raise e).
Proof.
  intros Hload Hd. simpl. intros Hch Hbody Hpub.
  rewrite (PublishFacts.emit_valid_unfold env _ _ _ _ _ _ Hload Hd). simpl.
  unfold bind, lift, ret, Connector.ext_handle, Connector.ext_unit, record.
  simpl. rewrite Hch, Hbody. simpl.
  rewrite <- ?app_assoc. simpl. rewrite Hpub. simpl.
  rewrite <- ?app_assoc. reflexivity.
Qed.

Lemma keys_set_not_mem {V} (k : string) (v : V) (d : PyDict.t V) :
  PyDict.mem k d = false -> PyDict.keys (PyDict.set k v d) = PyDict.keys d ++ [k].
Proof.
  unfold PyDict.mem, PyDict.keys. induction d as [|[k' v'] d IH]; simpl.
  - reflexivity.
  - destruct (String.eqb k k'); [discriminate|].
    intros Hm. simpl. now rewrite IH.
Qed.

(** X22: the keys of the payload after [emit_mq_message]: those it had, in
    their order, with [message_id] added at the end if it was not among
    them.  So a payload published again keeps its keys and has one
    [message_id]. *)
Theorem emit_mq_message_payload_keys
    (connection : conn_id) (q : string) (request_data : loc)
    (exchange : option string) (w : world) (d : list (string * value)) :
  heap w !! request_data = Some (VDict d) -> d <> [] ->
  exists d',
    heap (fst (emit_mq_message connection q request_data exchange w))
      !! request_data = Some (VDict d') /\
    PyDict.keys d' =
      (if PyDict.mem "message_id" d then PyDict.keys d
       else PyDict.keys d ++ ["message_id"]).
Proof.
  intros Hload Hd.
  rewrite (PublishFacts.emit_valid_unfold env _ _ _ _ _ _ Hload Hd). simpl.
  rewrite PublishFacts.emit_tail_heap. simpl.
  eexists. split; [apply lookup_insert_eq|].
  destruct (PyDict.mem "message_id" d) eqn:Hm.
  - now apply PyDictFacts.keys_set_mem.
  - now apply keys_set_not_mem.
Qed.

Lemma get_app_notin {V} (k : string) (pre l : PyDict.t V) :
  ~ In k (PyDict.keys pre) -> PyDict.get k (pre ++ l) = PyDict.get k l.
Proof.
  unfold PyDict.keys. induction pre as [|[k' v'] pre IH]; simpl; intros Hk.
  - reflexivity.
  - destruct (String.eqb k k') eqn:Heq.
    + apply String.eqb_eq in Heq. subst k'. tauto.
    + apply IH. tauto.
Qed.

(** Going through the names of the registry gives every worker, once. *)
Lemma registered_keys (self : MQConnector) :
  List.NoDup (PyDict.keys (consumers self)) ->
  Connector.registered self (PyDict.keys (consumers self)) =
    map snd (consumers self).
Proof.
  intros Hnd.
  assert (Hgen : forall post pre,
            consumers self = pre ++ post ->
            Connector.registered self (PyDict.keys post) = map snd post).
  { induction post as [|[k v] post IH]; intros pre Hcs; [reflexivity|].
    simpl.
    assert (Hk : PyDict.get k (consumers self) = Some v).
    { rewrite Hcs, get_app_notin.
      - simpl. now rewrite String.eqb_refl.
      - rewrite Hcs in Hnd. unfold PyDict.keys in *.
        rewrite map_app in Hnd. simpl in Hnd.
        intros Hin. apply NoDup_remove_2 in Hnd. apply Hnd.
        apply in_or_app. now left. }
    rewrite Hk. f_equal. apply (IH (pre ++ [(k, v)])).
    now rewrite <- app_assoc. }
  now apply (Hgen (consumers self) []).
Qed.

Lemma start_each_all (tenv : thread_env) (self : MQConnector) (daemon : bool) :
  (forall tr c, tenv tr c = None) ->
  forall names tr,
    Connector.start_each tenv self names daemon tr =
      (tr ++ flat_map (Connector.start_calls daemon)
               (Connector.registered self names),
       Ok VNone).
Proof.
  intros Hok. induction names as [|name names IH]; intros tr; simpl.
  - now rewrite app_nil_r.
  - unfold PyDict.mem.
    destruct (PyDict.get name (consumers self)) as [thread|]; [|apply IH].
    unfold Connector.thread_op. rewrite !Hok, IH. simpl.
    now rewrite <- !app_assoc.
Qed.

(** X23: when the threads accept it, [run_consumers] sets the daemon flag of
    and starts the thread of each registered worker among the names, in
    the order of the names, and passes over the names that are not
    registered. *)
Theorem run_consumers_starts_named (tenv : thread_env) (self : MQConnector)
    (names : list string) (daemon : bool) (tr : list thread_call) :
  (forall tr0 c, tenv tr0 c = None) ->
  Connector.run_consumers tenv self names daemon tr =
    (tr ++ flat_map (Connector.start_calls daemon)
             (Connector.registered self
                (Connector.names_to_stop self names)),
     Ok VNone).
Proof.
  intros Hok. unfold Connector.run_consumers. now apply start_each_all.
Qed.

(** X24: with no name given, [run_consumers] starts every worker of the
    registry, each once, in the order of the registry. *)
Theorem run_consumers_starts_all (tenv : thread_env) (self : MQConnector)
    (daemon : bool) (tr : list thread_call) :
  List.NoDup (PyDict.keys (consumers self)) ->
  (forall tr0 c, tenv tr0 c = None) ->
  Connector.run_consumers tenv self [] daemon tr =
    (tr ++ flat_map (Connector.start_calls daemon) (map snd (consumers self)),
     Ok VNone).
Proof.
  intros Hnd Hok. unfold Connector.run_consumers.
  rewrite (start_each_all tenv self daemon Hok). simpl.
  now rewrite registered_keys.
Qed.

Lemma start_each_app (tenv : thread_env) (self : MQConnector) (daemon : bool)
    (pre post : list string) :
  forall tr tr1 v,
    Connector.start_each tenv self pre daemon tr = (tr1, Ok v) ->
    Connector.start_each tenv self (pre ++ post) daemon tr =
      Connector.start_each tenv self post daemon tr1.
Proof.
  induction pre as [|name pre IH]; intros tr tr1 v Hpre; simpl in *.
  - now injection Hpre as <- _.
  - destruct (PyDict.mem name (consumers self)); [|now apply (IH _ _ v)].
    destruct (PyDict.get name (consumers self)) as [thread|]; [|discriminate].
    destruct (Connector.thread_op tenv (SetDaemon _ _) tr) as [tr2 [u|e]];
      [|discriminate].
    destruct (Connector.thread_op tenv (ThreadStart _) tr2) as [tr3 [u'|e]];
      [|discriminate].
    now apply (IH _ _ v).
Qed.

(** X25: a thread that cannot be started: [run_consumers] raises what the
    thread raised, as it is, and starts none of the workers after it.
    When the daemon flag cannot be set, as on a thread that was started
    before, the exception is that of the assignment and [start] is not
    called; when the flag is set and [start] raises, it is that of
    [start]. *)
Theorem run_consumers_raises_at_first_failure (tenv : thread_env)
    (self : MQConnector) (names pre post : list string) (name : string)
    (thread : ConsumerThread) (daemon : bool) (tr tr1 : list thread_call)
    (e : exn) :
  Connector.names_to_stop self names = pre ++ name :: post ->
  Connector.start_each tenv self pre daemon tr = (tr1, Ok VNone) ->
  PyDict.get name (consumers self) = Some thread ->
  (tenv tr1 (SetDaemon (ident thread) daemon) = Some e ->
   Connector.run_consumers tenv self names daemon tr =
     (tr1 ++ [SetDaemon (ident thread) daemon], Raise e)) /\
  (tenv tr1 (SetDaemon (ident thread) daemon) = None ->
   tenv (tr1 ++ [SetDaemon (ident thread) daemon])
     (ThreadStart (ident thread)) = Some e ->
   Connector.run_consumers tenv self names daemon tr =
     (tr1 ++ Connector.start_calls daemon thread, Raise e)).
Proof.
  intros Hnames Hpre Hget.
  unfold Connector.run_consumers. rewrite Hnames.
  rewrite (start_each_app tenv self daemon pre _ _ _ _ Hpre). simpl.
  rewrite (PyDictFacts.get_mem _ _ _ Hget), Hget.
  unfold Connector.thread_op. split.
  - intros Hd. rewrite Hd. reflexivity.
  - intros Hd Hs. rewrite Hd, Hs. simpl. now rewrite <- app_assoc.
Qed.
End Facts.

Lemma mq_credentials_defaults_witness :
  Connector.mq_credentials
    (Examples.connector []) Examples.idle =
    (Examples.idle,
     Ok {| username := VStr "neon"; password := VStr "secret" |}).
Proof.
  apply (mq_credentials_defaults (Examples.connector []) Examples.idle
           [("users", VDict [("test", VDict [("user", VStr "neon");
                                             ("password", VStr "secret")])]);
            ("server", VStr "localhost"); ("port", VInt 5672)]
           [("test", VDict [("user", VStr "neon");
                            ("password", VStr "secret")])]
           [("user", VStr "neon"); ("password", VStr "secret")]);
    first [reflexivity | discriminate].
Defined.

Lemma get_connection_params_result_witness :
  exists d,
    config (Examples.connector []) = VDict d /\
    host Examples.test_params =
      default (VStr "localhost") (PyDict.get "server" d) /\
    py_int Examples.env_ok (default (VStr "5672") (PyDict.get "port" d)) =
      Ok (port Examples.test_params) /\
    virtual_host Examples.test_params = "/test" /\
    extra Examples.test_params = [] /\
    snd (Connector.mq_credentials (Examples.connector []) Examples.idle) =
      Ok (credentials Examples.test_params) /\
    check_parameters Examples.env_ok Examples.test_params = None.
Proof.
  apply (get_connection_params_result Examples.env_ok (Examples.connector [])
           "/test" [] Examples.idle Examples.idle Examples.test_params).
  reflexivity.
Defined.

Lemma create_mq_connection_calls_witness :
  Connector.create_mq_connection Examples.env_ok (Examples.connector [])
    "/test" [] Examples.idle =
  (record (BlockingConnection Examples.test_params) Examples.idle, Ok 0%nat).
Proof.
  apply (proj1 (proj2 (create_mq_connection_calls Examples.env_ok
                         (Examples.connector []) "/test" [] Examples.idle))
           eq_refl Examples.test_params).
  reflexivity.
Defined.

Lemma register_consumer_sets_worker_up_witness :
  exists w' self',
    Connector.register_consumer Examples.env_ok (Examples.connector [])
      "test1" "/test" "test" "callback_func" None false Examples.idle =
      (w', Ok self') /\
    exists params thread,
      PyDict.get "test1" (consumers self') = Some thread /\
      ident thread = threads Examples.idle /\
      threads w' = S (threads Examples.idle) /\
      callback_func thread = "callback_func" /\
      error_func thread = Connector.or_default_error_handler None /\
      virtual_host params = "/test" /\
      trace w' =
        trace Examples.idle ++
        Connector.setup_calls params (connection thread) (channel thread)
          "test" "callback_func" false.
Proof.
  eexists _, _. split; [reflexivity|].
  apply (register_consumer_sets_worker_up Examples.env_ok
           (Examples.connector []) "test1" "/test" "test" "callback_func"
           None false Examples.idle).
  reflexivity.
Defined.

Lemma register_all_distinct_threads_witness :
  exists w' self',
    Connector.register_all Examples.env_ok (Examples.connector [])
      [Examples.reg "test1" "test"; Examples.reg "test2" "test1";
       Examples.reg "test1" "test3"] Examples.idle = (w', Ok self') /\
    Connector.worker_idents (consumers self') = [2%nat; 1%nat] /\
    List.NoDup (Connector.worker_idents (consumers self')).
Proof.
  eexists _, _. split; [reflexivity|]. split; [reflexivity|].
  eapply (register_all_distinct_threads Examples.env_ok
            (Examples.connector [])
            [Examples.reg "test1" "test"; Examples.reg "test2" "test1";
             Examples.reg "test1" "test3"] Examples.idle);
    reflexivity.
Defined.

Lemma emit_mq_message_publish_fails_witness :
  Connector.emit_mq_message Examples.env_publish_fails 7%nat "test" 0%nat
    (Some "") (Examples.world_with Examples.hello) =
    (World (<[0%nat := VDict [("data", VStr "Hello!");
                              ("message_id",
                               VStr "0f8fad5bd9cb469fa16570867728950e")]]>
              (heap (Examples.world_with Examples.hello)))
           [Uuid4; ConnChannel 7%nat;
            BasicPublish 1%nat "" "test" "eyJkYXRhIjogIkhlbGxvISJ9" "1000"]
           0,
     Raise Examples.boom).
Proof.
  apply (emit_mq_message_publish_fails Examples.env_publish_fails 7%nat "test"
           0%nat (Some "") (Examples.world_with Examples.hello)
           [("data", VStr "Hello!")] 1%nat "eyJkYXRhIjogIkhlbGxvISJ9"
           Examples.boom);
    first [reflexivity | discriminate].
Defined.

Lemma emit_mq_message_payload_keys_witness :
  exists d',
    heap (fst (Connector.emit_mq_message Examples.env_ok 7%nat "test" 0%nat
                 (Some "") (Examples.world_with Examples.hello)))
      !! 0%nat = Some (VDict d') /\
    PyDict.keys d' =
      (if PyDict.mem "message_id" [("data", VStr "Hello!")]
       then PyDict.keys [("data", VStr "Hello!")]
       else PyDict.keys [("data", VStr "Hello!")] ++ ["message_id"]).
Proof.
  apply (emit_mq_message_payload_keys Examples.env_ok 7%nat "test" 0%nat
           (Some "") (Examples.world_with Examples.hello)
           [("data", VStr "Hello!")]);
    first [reflexivity | discriminate].
Defined.

Lemma run_consumers_starts_named_witness :
  Connector.run_consumers Examples.tenv_ok Examples.two_consumers
    ["test2"; "nobody"] true [] =
    ([] ++ flat_map (Connector.start_calls true)
             (Connector.registered Examples.two_consumers
                (Connector.names_to_stop Examples.two_consumers
                   ["test2"; "nobody"])),
     Ok VNone).
Proof.
  apply (run_consumers_starts_named Examples.tenv_ok Examples.two_consumers
           ["test2"; "nobody"] true []).
  intros tr0 c. reflexivity.
Defined.

Lemma run_consumers_starts_all_witness :
  Connector.run_consumers Examples.tenv_ok Examples.two_consumers [] true [] =
    ([] ++ flat_map (Connector.start_calls true)
             (map snd (consumers Examples.two_consumers)),
     Ok VNone).
Proof.
  apply (run_consumers_starts_all Examples.tenv_ok Examples.two_consumers
           true []).
  - repeat constructor; simpl; intuition discriminate.
  - intros tr0 c. reflexivity.
Defined.

Lemma run_consumers_raises_at_first_failure_witness :
  Connector.run_consumers Examples.tenv_started Examples.two_consumers []
    true [] =
    ([] ++ [SetDaemon 0 true],
     Raise (Exc RuntimeError
              (VStr "cannot set daemon status of active thread"))).
Proof.
  apply (proj1 (run_consumers_raises_at_first_failure Examples.tenv_started
                  Examples.two_consumers [] [] ["test2"] "test1"
                  (Examples.thread 0 DefaultErrorHandler) true [] []
                  (Exc RuntimeError
                     (VStr "cannot set daemon status of active thread"))
                  eq_refl eq_refl eq_refl)).
  reflexivity.
Defined.
End ConnectorMore.

(** ** Configuration files and the constructor of the connector *)

Module ConfigMore.
Section Facts.
Variable fs : FileSystem.
Variable env : Env.

Abbreviation load_neon_mq_config := (Config.load_neon_mq_config fs).
Abbreviation MQConnector_init := (Connector.MQConnector_init env fs).

(** What [load_neon_mq_config] makes of the document of the file it
    reads. *)
Lemma load_first_file (c : value) :
  Config.first_config fs (Config.valid_config_paths fs) = Ok c ->
  (truthy c = false -> load_neon_mq_config = Ok VNone) /\
  (forall d, c = VDict d -> d <> [] ->
     load_neon_mq_config = Ok (default c (PyDict.get "MQ" d))).
Proof.
  intros Hfirst. unfold Config.load_neon_mq_config. rewrite Hfirst. split.
  - now intros ->.
  - intros d -> Hd. destruct d as [|kv d0]; [congruence|].
    simpl truthy. simpl negb. cbv iota.
    unfold PyDict.mem, py_getitem.
    destruct (PyDict.get "MQ" (kv :: d0)); reflexivity.
Qed.

(** X26: when the first of the two configuration paths is a file, it alone is
    read, whatever the second holds: an empty document there gives [None],
    and a document that is a non-empty dict gives its entry [MQ], or the
    whole dict when it has none. *)
Theorem load_neon_mq_config_first_file (c : value) :
  isfile fs (expanduser fs "~/.config/neon/mq_config.json") = true ->
  json_load fs (expanduser fs (expanduser fs "~/.config/neon/mq_config.json"))
    = Ok c ->
  (truthy c = false -> load_neon_mq_config = Ok VNone) /\
  (forall d, c = VDict d -> d <> [] ->
     load_neon_mq_config = Ok (default c (PyDict.get "MQ" d))).
Proof.
  intros Hfile Hload. apply load_first_file.
  unfold Config.valid_config_paths, Config.first_config, Config.from_file.
  now rewrite Hfile, Hload.
Qed.

Lemma load_no_file :
  isfile fs (expanduser fs "~/.config/neon/mq_config.json") = false ->
  isfile fs (expanduser fs "~/.local/share/neon/credentials.json") = false ->
  load_neon_mq_config = Ok VNone.
Proof.
  intros H1 H2.
  unfold Config.load_neon_mq_config, Config.valid_config_paths,
    Config.first_config.
  now rewrite H1, H2.
Qed.

(** X27: a connector made from a configuration that is a non-empty dict: no
    file is looked at, the configuration is the entry [MQ] of the dict
    when that is there and not empty, and the dict itself otherwise; the
    service id is a new identifier and the registry is empty. *)
Theorem MQConnector_init_with_config (d : list (string * value))
    (service_name : string) (w : world) :
  d <> [] ->
  let mq := default VNone (PyDict.get "MQ" d) in
  MQConnector_init (VDict d) service_name w =
    (record Uuid4 w,
     Ok {| config := if truthy mq then mq else VDict d;
           service_id := env_uuid env (trace w);
           service_name := service_name;
           consumers := [] |}).
Proof.
  intros Hd.
  assert (Ht : truthy (VDict d) = true)
    by (destruct d; [congruence|reflexivity]).
  unfold Connector.MQConnector_init, bind, lift, ret,
    Connector.create_unique_id.
  rewrite Ht. unfold py_get, py_getitem.
  destruct (PyDict.get "MQ" d) as [mq|]; simpl.
  - destruct (truthy mq); reflexivity.
  - reflexivity.
Qed.

(** X28: a connector made without a configuration when neither configuration
    file exists: the constructor raises the [AttributeError] of looking
    [MQ] up in [None], before it draws a service id. *)
Theorem MQConnector_init_without_config (config : value)
    (service_name : string) (w : world) :
  truthy config = false ->
  isfile fs (expanduser fs "~/.config/neon/mq_config.json") = false ->
  isfile fs (expanduser fs "~/.local/share/neon/credentials.json") = false ->
  MQConnector_init config service_name w =
    (w, Raise (Exc AttributeError (VStr "get"))).
Proof.
  intros Hc H1 H2.
  unfold Connector.MQConnector_init, bind, lift, ret.
  rewrite Hc, (load_no_file H1 H2). reflexivity.
Qed.

(** X29: a connector made without a configuration when the first configuration
    file holds the settings under [MQ]: the configuration of the connector
    is the inner dict. *)
Theorem MQConnector_init_from_file (config : value) (service_name : string)
    (w : world) (d inner : list (string * value)) :
  truthy config = false ->
  isfile fs (expanduser fs "~/.config/neon/mq_config.json") = true ->
  json_load fs (expanduser fs (expanduser fs "~/.config/neon/mq_config.json"))
    = Ok (VDict d) ->
  PyDict.get "MQ" d = Some (VDict inner) ->
  inner <> [] -> PyDict.get "MQ" inner = None ->
  MQConnector_init config service_name w =
    (record Uuid4 w,
     Ok {| config := VDict inner;
           service_id := env_uuid env (trace w);
           service_name := service_name;
           consumers := [] |}).
Proof.
  intros Hc Hfile Hload Hmq Hinner Hno.
  assert (Hd : d <> []) by (intros ->; discriminate).
  destruct (load_first_file (VDict d)) as [_ Hl].
  { unfold Config.valid_config_paths, Config.first_config, Config.from_file.
    now rewrite Hfile, Hload. }
  unfold Connector.MQConnector_init, bind, lift, ret,
    Connector.create_unique_id.
  rewrite Hc, (Hl d eq_refl Hd), Hmq. simpl default.
  unfold py_get. rewrite Hno. reflexivity.
Qed.
End Facts.

Lemma load_neon_mq_config_first_file_witness :
  Config.load_neon_mq_config Examples.fs_first =
    Ok (default (VDict [("MQ", Examples.test_config)])
          (PyDict.get "MQ" [("MQ", Examples.test_config)])).
Proof.
  apply (proj2 (load_neon_mq_config_first_file Examples.fs_first
                  (VDict [("MQ", Examples.test_config)]) eq_refl eq_refl)
           [("MQ", Examples.test_config)] eq_refl).
  discriminate.
Defined.

Lemma MQConnector_init_with_config_witness :
  Connector.MQConnector_init Examples.env_ok Examples.fs_none
    (VDict [("MQ", Examples.test_config)]) "test" Examples.idle =
    (record Uuid4 Examples.idle,
     Ok {| config := Examples.test_config;
           service_id := "0f8fad5bd9cb469fa16570867728950e";
           service_name := "test";
           consumers := [] |}).
Proof.
  apply (MQConnector_init_with_config Examples.fs_none Examples.env_ok
           [("MQ", Examples.test_config)] "test" Examples.idle).
  discriminate.
Defined.

Lemma MQConnector_init_without_config_witness :
  Connector.MQConnector_init Examples.env_ok Examples.fs_none VNone "test"
    Examples.idle =
    (Examples.idle, Raise (Exc AttributeError (VStr "get"))).
Proof.
  apply (MQConnector_init_without_config Examples.fs_none Examples.env_ok
           VNone "test" Examples.idle); reflexivity.
Defined.

Lemma MQConnector_init_from_file_witness :
  Connector.MQConnector_init Examples.env_ok Examples.fs_first VNone "test"
    Examples.idle =
    (record Uuid4 Examples.idle,
     Ok {| config := Examples.test_config;
           service_id := "0f8fad5bd9cb469fa16570867728950e";
           service_name := "test";
           consumers := [] |}).
Proof.
  apply (MQConnector_init_from_file Examples.fs_first Examples.env_ok VNone
           "test" Examples.idle [("MQ", Examples.test_config)]
           [("users", VDict [("test", VDict [("user", VStr "neon");
                                             ("password", VStr "secret")])]);
            ("server", VStr "localhost"); ("port", VInt 5672)]);
    first [reflexivity | discriminate].
Defined.
End ConfigMore.
